(** * Initiator payment manager (raiden/transfer/mediated_transfer/initiator_manager.py)

    A shallow embedding of the initiator-side payment orchestrator and the
    properties its specification states about it.

    The Python module works on objects it receives by reference: the payment
    state (a dict of route attempts and a list of cancelled channels), the
    channel map and the pseudo random generator.  The embedding passes the
    payment state explicitly, keeps the channel map and the generator in a
    small heap, and keeps Python's exceptions as a result of their own. *)

From stdpp Require Import base option list strings gmap.
From Stdlib Require Import ZArith.

Local Open Scope string_scope.
Local Open Scope list_scope.
Local Open Scope Z_scope.

(** ** Insertion-ordered dictionaries

    A Python dict iterates in insertion order; [list(d.keys())] is a snapshot
    of that order.  The mapping of attempts is therefore an association list
    whose keys are pairwise distinct ([wf]). *)
Module PyDict.
Section dict.
Context {K V : Type} `{EqDecision K}.

Definition dict : Type := list (K * V).

(** [list(d.keys())] *)
Definition keys (d : dict) : list K := map fst d.

Definition values (d : dict) : list V := map snd d.

Definition wf (d : dict) : Prop := NoDup (keys d).

(** [d.get(k)] *)
Fixpoint get (d : dict) (k : K) : option V :=
  match d with
  | [] => None
  | (k', v) :: d' => if decide (k' = k) then Some v else get d' k
  end.

(** [d[k] = v]: an existing key keeps its position, a new one goes last. *)
Fixpoint setitem (d : dict) (k : K) (v : V) : dict :=
  match d with
  | [] => [(k, v)]
  | (k', v') :: d' =>
      if decide (k' = k) then (k', v) :: d' else (k', v') :: setitem d' k v
  end.

(** [del d[k]] (the caller has checked that the key is there). *)
Fixpoint delitem (d : dict) (k : K) : dict :=
  match d with
  | [] => []
  | (k', v') :: d' =>
      if decide (k' = k) then delitem d' k else (k', v') :: delitem d' k
  end.
End dict.
Global Arguments dict : clear implicits.
End PyDict.

(** ** Identifiers *)

Abbreviation SecretHash := string (only parsing).
Abbreviation Secret := string (only parsing).
Abbreviation Address := string (only parsing).
Abbreviation PaymentNetworkID := string (only parsing).
Abbreviation TokenNetworkID := string (only parsing).
Abbreviation ChannelID := Z (only parsing).
Abbreviation PaymentID := Z (only parsing).
Abbreviation TokenAmount := Z (only parsing).
Abbreviation BlockExpiration := Z (only parsing).
Abbreviation BlockNumber := Z (only parsing).

(** The lock of a transfer: the three fields [handle_transferrefundcancelroute]
    compares. *)
Record HashTimeLockState := mkHashTimeLockState {
  lock_amount : TokenAmount;
  lock_expiration : BlockExpiration;
  lock_secrethash : SecretHash;
}.

(** ** What the module imports

    The classes of [raiden.transfer.state] and the messages are declared
    outside this module; it only reads a few of their attributes.  They are
    kept abstract, with one reader per attribute the module touches. *)
Class External := {
  NettingChannelState : Type;
  NettingChannelEndState : Type;
  Random : Type;
  RouteState : Type;
  LockedTransferUnsignedState : Type;
  LockedTransferSignedState : Type;
  SendSecretReveal : Type;
  (** events built by the collaborators (SendLockedTransfer, ...) *)
  ForeignEvent : Type;
  (** the fields of a state change this module does not read *)
  Details : Type;
  chan_payment_network_identifier : NettingChannelState → PaymentNetworkID;
  chan_token_network_identifier : NettingChannelState → TokenNetworkID;
  partner_state : NettingChannelState → NettingChannelEndState;
  transfer_lock : LockedTransferUnsignedState → HashTimeLockState;
  transfer_payment_identifier : LockedTransferUnsignedState → PaymentID;
  refund_lock : LockedTransferSignedState → HashTimeLockState;
  (** the hash H of the specification *)
  sha3 : Secret → SecretHash;
}.

Section DataModel.
Context `{External}.

(** [TransferDescriptionWithSecretState], in the order of the constructor
    call of [handle_transferrefundcancelroute]. *)
Record TransferDescriptionWithSecretState := mkTransferDescription {
  td_payment_network_identifier : PaymentNetworkID;
  td_payment_identifier : PaymentID;
  td_amount : TokenAmount;
  td_token_network_identifier : TokenNetworkID;
  td_initiator : Address;
  td_target : Address;
  td_secret : Secret;
}.

(** Modelled from the spec: the class [TransferDescriptionWithSecretState]
    is declared in raiden/transfer/mediated_transfer/state.py; its
    [secrethash] attribute is "secrethash = H(secret)". *)
Definition td_secrethash (td : TransferDescriptionWithSecretState) : SecretHash :=
  sha3 (td_secret td).

(** Modelled from the spec: [InitiatorTransferState] ("RouteAttempt") is
    declared in raiden/transfer/mediated_transfer/state.py; the fields are
    those the data model lists, without the derived status. *)
Record InitiatorTransferState := mkInitiatorTransferState {
  transfer_description : TransferDescriptionWithSecretState;
  channel_identifier : ChannelID;
  transfer : LockedTransferUnsignedState;
  revealsecret : option SendSecretReveal;
  received_secret_request : bool;
}.

(** Modelled from the spec: [InitiatorPaymentState] is declared in
    raiden/transfer/mediated_transfer/state.py: the mapping of attempts and
    the channels already abandoned. *)
Record InitiatorPaymentState := mkInitiatorPaymentState {
  initiator_transfers : PyDict.dict SecretHash InitiatorTransferState;
  cancelled_channels : list ChannelID;
}.

Inductive Event :=
| EventPaymentSentFailed (payment_network_identifier : PaymentNetworkID)
    (token_network_identifier : TokenNetworkID) (identifier : PaymentID)
    (target : Address) (reason : string)
| EventUnlockFailed (identifier : PaymentID) (secrethash : SecretHash)
    (reason : string)
| EventUnlockClaimFailed (identifier : PaymentID) (secrethash : SecretHash)
    (reason : string)
| EventForeign (e : ForeignEvent).

(** The state changes of the dispatch table; anything else is [Unhandled]. *)
Inductive StateChange :=
| Block (block_number : BlockNumber) (rest : Details)
| ActionInitInitiator (transfer : TransferDescriptionWithSecretState)
    (routes : list RouteState)
| ReceiveSecretRequest (secrethash : SecretHash) (rest : Details)
| ReceiveTransferRefundCancelRoute (routes : list RouteState)
    (transfer : LockedTransferSignedState) (secret : Secret)
| ActionCancelPayment
| ReceiveSecretReveal (secret : Secret) (rest : Details)
| ReceiveLockExpired (secrethash : SecretHash) (rest : Details)
| ContractReceiveSecretReveal (rest : Details)
| Unhandled (rest : Details).

(** [raiden.transfer.architecture.TransitionResult] *)
Record TransitionResult (S : Type) := mkTransitionResult {
  new_state : option S;
  events : list Event;
}.
Global Arguments mkTransitionResult {S} _ _.
Global Arguments new_state {S} _.
Global Arguments events {S} _.

Abbreviation ChannelMap := (gmap Z NettingChannelState) (only parsing).

(** *** Returns of the collaborators

    A collaborator is handed objects and may update them in place.  Next to
    what it returns, each record below says how the call leaves the objects
    it was handed. *)

(** [initiator.state_transition]: the attempt, the channel state and the
    generator are its to update. *)
Record SubIteration := mkSubIteration {
  sub_iteration : TransitionResult InitiatorTransferState;
  sub_initiator_state : InitiatorTransferState;
  sub_channel_state : NettingChannelState;
  sub_prng : Random;
}.

(** [initiator.try_new_route]: it locks funds in one of the channels of the
    map and draws a message identifier. *)
Record RouteIteration := mkRouteIteration {
  route_iteration : TransitionResult InitiatorTransferState;
  route_channels : ChannelMap;
  route_prng : Random;
}.

(** [channel.handle_receive_refundtransfercancelroute]: a triple, of which
    the module reads the first two components. *)
Record RefundOutcome := mkRefundOutcome {
  refund_is_valid : bool;
  refund_events : list Event;
  refund_channel_state : NettingChannelState;
}.

(** [channel.handle_receive_lock_expired]: a transition result over the
    channel state, which is never absent. *)
Record ChannelIteration := mkChannelIteration {
  chan_new_state : NettingChannelState;
  chan_events : list Event;
  chan_channel_state : NettingChannelState;
}.
End DataModel.

Abbreviation ChannelMap := (gmap Z NettingChannelState) (only parsing).

(** The [channel] module, as far as this module calls it. *)
Class Channel `{External} := {
  refund_transfer_matches_received :
    LockedTransferSignedState → LockedTransferUnsignedState → bool;
  handle_receive_refundtransfercancelroute :
    NettingChannelState → LockedTransferSignedState → RefundOutcome;
  handle_receive_lock_expired :
    NettingChannelState → StateChange → BlockNumber → ChannelIteration;
  get_lock : NettingChannelEndState → SecretHash → option HashTimeLockState;
}.

(** The [initiator] module: the per-attempt machine. *)
Class Initiator `{External} := {
  try_new_route :
    option InitiatorTransferState → ChannelMap → list RouteState →
    TransferDescriptionWithSecretState → Random → BlockNumber → RouteIteration;
  initiator_state_transition :
    InitiatorTransferState → StateChange → NettingChannelState → Random →
    BlockNumber → SubIteration;
}.

(** ** Exceptions and the heap

    [d[k]] on a missing key raises [KeyError], a failed [assert] raises
    [AssertionError], an attribute read on [None] raises [AttributeError].
    A computation runs on the heap and either returns a value with the heap
    it leaves, or raises; what an exception leaves behind is not observed. *)
Inductive PyException := KeyError | AssertionError | AttributeError.

Section Monad.
Context `{External}.

Record Heap := mkHeap {
  channelidentifiers_to_channels : ChannelMap;
  pseudo_random_generator : Random;
}.

Inductive Outcome (A : Type) :=
| Returns (a : A) (h : Heap)
| Raises (e : PyException).
Global Arguments Returns {A} _ _.
Global Arguments Raises {A} _.

Definition Py (A : Type) : Type := Heap → Outcome A.

Definition ret {A} (a : A) : Py A := λ h, Returns a h.

Definition bind {A B} (c : Py A) (k : A → Py B) : Py B :=
  λ h, match c h with
       | Returns a h' => k a h'
       | Raises e => Raises e
       end.

Definition raise {A} (e : PyException) : Py A := λ _, Raises e.

(** [assert b] *)
Definition assert (b : bool) : Py unit :=
  if b then ret tt else raise AssertionError.

(** [o.attribute], for an [o] that may be [None] *)
Definition deref {A} (o : option A) : Py A :=
  match o with
  | Some a => ret a
  | None => raise AttributeError
  end.

(** [d[k]] on the mapping of attempts *)
Definition getitem {V} (d : PyDict.dict SecretHash V) (k : SecretHash) : Py V :=
  match PyDict.get d k with
  | Some v => ret v
  | None => raise KeyError
  end.

(** [channelidentifiers_to_channels[channel_identifier]] *)
Definition channel_getitem (channel_identifier : ChannelID) : Py NettingChannelState :=
  λ h, match channelidentifiers_to_channels h !! channel_identifier with
       | Some channel_state => Returns channel_state h
       | None => Raises KeyError
       end.

(** [channelidentifiers_to_channels.get(channel_identifier)] *)
Definition channel_get (channel_identifier : ChannelID) : Py (option NettingChannelState) :=
  λ h, Returns (channelidentifiers_to_channels h !! channel_identifier) h.

(** The channel state under [channel_identifier] as a collaborator left it. *)
Definition channel_store (channel_identifier : ChannelID)
    (channel_state : NettingChannelState) : Py unit :=
  λ h, Returns tt (mkHeap (<[channel_identifier := channel_state]>
                             (channelidentifiers_to_channels h))
                          (pseudo_random_generator h)).

Definition prng_store (prng : Random) : Py unit :=
  λ h, Returns tt (mkHeap (channelidentifiers_to_channels h) prng).

Definition channels_store (channels : ChannelMap) : Py unit :=
  λ h, Returns tt (mkHeap channels (pseudo_random_generator h)).

Definition get_heap : Py Heap := λ h, Returns h h.
End Monad.

Declare Scope py_scope.
Delimit Scope py_scope with py.
Notation "'let*' x ':=' c 'in' k" := (bind c (λ x, k))
  (at level 10, x pattern, c at level 100, k at level 200) : py_scope.

(** ** The module *)
Section Manager.
Context `{Ext : External} {Chan : Channel} {Init : Initiator}.
Local Open Scope py_scope.

(** *** Attribute reads on a state change *)

Definition sc_secrethash (state_change : StateChange) : option SecretHash :=
  match state_change with
  | ReceiveSecretRequest secrethash _ => Some secrethash
  | ReceiveLockExpired secrethash _ => Some secrethash
  | ReceiveSecretReveal secret _ => Some (sha3 secret)
  | _ => None
  end.

Definition sc_refund_transfer (state_change : StateChange)
    : option LockedTransferSignedState :=
  match state_change with
  | ReceiveTransferRefundCancelRoute _ transfer _ => Some transfer
  | _ => None
  end.

Definition sc_secret (state_change : StateChange) : option Secret :=
  match state_change with
  | ReceiveTransferRefundCancelRoute _ _ secret => Some secret
  | ReceiveSecretReveal secret _ => Some secret
  | _ => None
  end.

Definition sc_routes (state_change : StateChange) : option (list RouteState) :=
  match state_change with
  | ActionInitInitiator _ routes => Some routes
  | ReceiveTransferRefundCancelRoute routes _ _ => Some routes
  | _ => None
  end.

Definition sc_transfer_description (state_change : StateChange)
    : option TransferDescriptionWithSecretState :=
  match state_change with
  | ActionInitInitiator transfer _ => Some transfer
  | _ => None
  end.

(** *** Calls into the collaborators

    Each call reads the objects it hands over from the heap and stores them
    back as the collaborator left them. *)

Definition call_try_new_route (old_initiator_state : option InitiatorTransferState)
    (available_routes : list RouteState)
    (transfer_description : TransferDescriptionWithSecretState)
    (block_number : BlockNumber) : Py (TransitionResult InitiatorTransferState) :=
  let* h := get_heap in
  let r := try_new_route old_initiator_state (channelidentifiers_to_channels h)
             available_routes transfer_description (pseudo_random_generator h)
             block_number in
  let* _ := channels_store (route_channels r) in
  let* _ := prng_store (route_prng r) in
  ret (route_iteration r).

(** Returns the transition result and the attempt object as the sub-machine
    left it. *)
Definition call_initiator_state_transition (initiator_state : InitiatorTransferState)
    (state_change : StateChange) (channel_state : NettingChannelState)
    (block_number : BlockNumber)
    : Py (TransitionResult InitiatorTransferState * InitiatorTransferState) :=
  let* h := get_heap in
  let r := initiator_state_transition initiator_state state_change channel_state
             (pseudo_random_generator h) block_number in
  let* _ := channel_store (channel_identifier initiator_state) (sub_channel_state r) in
  let* _ := prng_store (sub_prng r) in
  ret (sub_iteration r, sub_initiator_state r).

Definition call_handle_receive_refundtransfercancelroute
    (channel_identifier : ChannelID) (channel_state : NettingChannelState)
    (refund_transfer : LockedTransferSignedState) : Py (bool * list Event) :=
  let r := handle_receive_refundtransfercancelroute channel_state refund_transfer in
  let* _ := channel_store channel_identifier (refund_channel_state r) in
  ret (refund_is_valid r, refund_events r).

Definition call_handle_receive_lock_expired
    (channel_identifier : ChannelID) (channel_state : NettingChannelState)
    (state_change : StateChange) (block_number : BlockNumber)
    : Py (NettingChannelState * list Event) :=
  let r := handle_receive_lock_expired channel_state state_change block_number in
  let* _ := channel_store channel_identifier (chan_channel_state r) in
  ret (chan_new_state r, chan_events r).

(** *** In-place updates of the payment state *)

Definition with_transfers (payment_state : InitiatorPaymentState)
    (d : PyDict.dict SecretHash InitiatorTransferState) : InitiatorPaymentState :=
  mkInitiatorPaymentState d (cancelled_channels payment_state).

(** *** The functions of the module *)

Definition clear_if_finalized (iteration : TransitionResult InitiatorPaymentState)
    : TransitionResult InitiatorPaymentState :=
  match new_state iteration with
  | None => iteration
  | Some state =>
      if (length (initiator_transfers state) =? 0)%nat
      then mkTransitionResult None (events iteration)
      else iteration
  end.

Definition can_cancel (initiator : option InitiatorTransferState) : bool :=
  match initiator with
  | None => true
  | Some initiator =>
      match revealsecret initiator with None => true | Some _ => false end
  end.

Definition events_for_cancel_current_route
    (transfer_description : TransferDescriptionWithSecretState) : list Event :=
  let unlock_failed :=
    EventUnlockFailed (td_payment_identifier transfer_description)
      (td_secrethash transfer_description) "route was canceled" in
  [unlock_failed].

(** Returns the payment state with the channel appended, and the events. *)
Definition cancel_current_route (payment_state : InitiatorPaymentState)
    (initiator_state : InitiatorTransferState)
    : Py (InitiatorPaymentState * list Event) :=
  let* _ := assert (can_cancel (Some initiator_state)) in
  let transfer_description := transfer_description initiator_state in
  let payment_state :=
    mkInitiatorPaymentState (initiator_transfers payment_state)
      (cancelled_channels payment_state ++ [channel_identifier initiator_state]) in
  ret (payment_state, events_for_cancel_current_route transfer_description).

Definition maybe_try_new_route (payment_state : InitiatorPaymentState)
    (initiator_state : InitiatorTransferState)
    (transfer_description : TransferDescriptionWithSecretState)
    (available_routes : list RouteState) (block_number : BlockNumber)
    : Py (TransitionResult InitiatorPaymentState) :=
  let events0 := [] in
  if can_cancel (Some initiator_state) then
    let* (payment_state, cancel_events) :=
      cancel_current_route payment_state initiator_state in
    let* sub_iteration :=
      call_try_new_route (Some initiator_state) available_routes
        transfer_description block_number in
    let events1 := events0 ++ cancel_events in
    let events2 := events1 ++ events sub_iteration in
    let* _ := assert (bool_decide (is_Some (new_state sub_iteration))) in
    let* new_initiator := deref (new_state sub_iteration) in
    let new_transfer := transfer new_initiator in
    let payment_state :=
      with_transfers payment_state
        (PyDict.setitem (initiator_transfers payment_state)
           (lock_secrethash (transfer_lock new_transfer)) new_initiator) in
    ret (mkTransitionResult (Some payment_state) events2)
  else
    ret (mkTransitionResult (Some payment_state) events0).

(** [channelidentifiers_to_channels[channel_identifier]] raises on a missing
    key, and a channel state that is there is never falsy: the [if not
    channel_state] that follows in the source has no input left. *)
Definition subdispatch_to_initiatortransfer (initiator_state : InitiatorTransferState)
    (state_change : StateChange) (block_number : BlockNumber)
    : Py (TransitionResult InitiatorTransferState * InitiatorTransferState) :=
  let channel_identifier := channel_identifier initiator_state in
  let* channel_state := channel_getitem channel_identifier in
  call_initiator_state_transition initiator_state state_change channel_state
    block_number.

(** The body of the [for] loop of [subdispatch_to_all_initiatortransfer],
    over the snapshot of the keys.  The sub-machine works on the attempt
    object that sits in the mapping, so the entry is the object as the call
    left it; the returned state is only tested for [None]. *)
Fixpoint subdispatch_to_all_loop (snapshot : list SecretHash)
    (payment_state : InitiatorPaymentState) (events0 : list Event)
    (state_change : StateChange) (block_number : BlockNumber)
    : Py (InitiatorPaymentState * list Event) :=
  match snapshot with
  | [] => ret (payment_state, events0)
  | secrethash :: snapshot =>
      let* initiator_state :=
        getitem (initiator_transfers payment_state) secrethash in
      let channel_identifier := channel_identifier initiator_state in
      let* channel_state := channel_get channel_identifier in
      match channel_state with
      | None =>
          subdispatch_to_all_loop snapshot payment_state events0 state_change
            block_number
      | Some channel_state =>
          let* (sub_iteration, initiator_state) :=
            call_initiator_state_transition initiator_state state_change
              channel_state block_number in
          let payment_state :=
            with_transfers payment_state
              (PyDict.setitem (initiator_transfers payment_state) secrethash
                 initiator_state) in
          let payment_state :=
            match new_state sub_iteration with
            | None =>
                with_transfers payment_state
                  (PyDict.delitem (initiator_transfers payment_state) secrethash)
            | Some _ => payment_state
            end in
          subdispatch_to_all_loop snapshot payment_state
            (events0 ++ events sub_iteration) state_change block_number
      end
  end.

Definition subdispatch_to_all_initiatortransfer
    (payment_state : option InitiatorPaymentState) (state_change : StateChange)
    (block_number : BlockNumber) : Py (TransitionResult InitiatorPaymentState) :=
  let* payment_state := deref payment_state in
  let* (payment_state, events0) :=
    subdispatch_to_all_loop (PyDict.keys (initiator_transfers payment_state))
      payment_state [] state_change block_number in
  ret (mkTransitionResult (Some payment_state) events0).

Definition handle_block (payment_state : option InitiatorPaymentState)
    (state_change : StateChange) (block_number : BlockNumber)
    : Py (TransitionResult InitiatorPaymentState) :=
  subdispatch_to_all_initiatortransfer payment_state state_change block_number.

Definition handle_init (payment_state : option InitiatorPaymentState)
    (state_change : StateChange) (block_number : BlockNumber)
    : Py (TransitionResult InitiatorPaymentState) :=
  match payment_state with
  | None =>
      let* routes := deref (sc_routes state_change) in
      let* transfer_description := deref (sc_transfer_description state_change) in
      let* sub_iteration :=
        call_try_new_route None routes transfer_description block_number in
      let events0 := events sub_iteration in
      match new_state sub_iteration with
      | Some new_initiator =>
          let payment_state :=
            mkInitiatorPaymentState
              [(lock_secrethash (transfer_lock (transfer new_initiator)),
                new_initiator)] [] in
          ret (mkTransitionResult (Some payment_state) events0)
      | None => ret (mkTransitionResult payment_state events0)
      end
  | Some _ => ret (mkTransitionResult payment_state [])
  end.

(** The body of the [for] loop of [handle_cancelpayment]. *)
Fixpoint handle_cancelpayment_loop (snapshot : list SecretHash)
    (payment_state : InitiatorPaymentState) (events0 : list Event)
    : Py (InitiatorPaymentState * list Event) :=
  match snapshot with
  | [] => ret (payment_state, events0)
  | secrethash :: snapshot =>
      let* initiator_state :=
        getitem (initiator_transfers payment_state) secrethash in
      let channel_identifier := channel_identifier initiator_state in
      let* channel_state := channel_getitem channel_identifier in
      if can_cancel (Some initiator_state) then
        let transfer_description := transfer_description initiator_state in
        let* (payment_state, cancel_events) :=
          cancel_current_route payment_state initiator_state in
        let payment_state :=
          with_transfers payment_state
            (PyDict.delitem (initiator_transfers payment_state) secrethash) in
        let cancel :=
          EventPaymentSentFailed
            (chan_payment_network_identifier channel_state)
            (chan_token_network_identifier channel_state)
            (td_payment_identifier transfer_description)
            (td_target transfer_description)
            "user canceled payment" in
        let cancel_events := cancel_events ++ [cancel] in
        handle_cancelpayment_loop snapshot payment_state (events0 ++ cancel_events)
      else
        handle_cancelpayment_loop snapshot payment_state events0
  end.

Definition handle_cancelpayment (payment_state : option InitiatorPaymentState)
    : Py (TransitionResult InitiatorPaymentState) :=
  let* payment_state := deref payment_state in
  let* (payment_state, events0) :=
    handle_cancelpayment_loop (PyDict.keys (initiator_transfers payment_state))
      payment_state [] in
  ret (mkTransitionResult (Some payment_state) events0).

(** [maybe_try_new_route] updates the payment state it is given in place, so
    the [payment_state] of the last line is the state its iteration holds. *)
Definition handle_transferrefundcancelroute
    (payment_state : option InitiatorPaymentState) (state_change : StateChange)
    (block_number : BlockNumber) : Py (TransitionResult InitiatorPaymentState) :=
  let* payment_state := deref payment_state in
  let* refund_transfer := deref (sc_refund_transfer state_change) in
  match PyDict.get (initiator_transfers payment_state)
          (lock_secrethash (refund_lock refund_transfer)) with
  | None => ret (mkTransitionResult (Some payment_state) [])
  | Some initiator_state =>
      let channel_identifier := channel_identifier initiator_state in
      let* channel_state := channel_getitem channel_identifier in
      let original_transfer := transfer initiator_state in
      let is_valid_lock :=
        bool_decide (lock_secrethash (refund_lock refund_transfer) =
                     lock_secrethash (transfer_lock original_transfer)) &&
        bool_decide (lock_amount (refund_lock refund_transfer) =
                     lock_amount (transfer_lock original_transfer)) &&
        bool_decide (lock_expiration (refund_lock refund_transfer) =
                     lock_expiration (transfer_lock original_transfer)) in
      let is_valid_refund :=
        refund_transfer_matches_received refund_transfer original_transfer in
      let events0 := [] in
      if negb is_valid_lock || negb is_valid_refund then
        ret (mkTransitionResult (Some payment_state) [])
      else
        let* (is_valid, channel_events) :=
          call_handle_receive_refundtransfercancelroute channel_identifier
            channel_state refund_transfer in
        let events1 := events0 ++ channel_events in
        if negb is_valid then
          ret (mkTransitionResult (Some payment_state) [])
        else
          let old_description := transfer_description initiator_state in
          let* secret := deref (sc_secret state_change) in
          let transfer_description :=
            mkTransferDescription
              (td_payment_network_identifier old_description)
              (td_payment_identifier old_description)
              (td_amount old_description)
              (td_token_network_identifier old_description)
              (td_initiator old_description)
              (td_target old_description)
              secret in
          let* routes := deref (sc_routes state_change) in
          let* sub_iteration :=
            maybe_try_new_route payment_state initiator_state
              transfer_description routes block_number in
          let events2 := events1 ++ events sub_iteration in
          ret (mkTransitionResult (new_state sub_iteration) events2)
  end.

Definition handle_lock_expired (payment_state : option InitiatorPaymentState)
    (state_change : StateChange) (block_number : BlockNumber)
    : Py (TransitionResult InitiatorPaymentState) :=
  let* payment_state := deref payment_state in
  let* event_secrethash := deref (sc_secrethash state_change) in
  match PyDict.get (initiator_transfers payment_state) event_secrethash with
  | None => ret (mkTransitionResult (Some payment_state) [])
  | Some initiator_state =>
      let channel_identifier := channel_identifier initiator_state in
      let* channel_state := channel_getitem channel_identifier in
      let secrethash := lock_secrethash (transfer_lock (transfer initiator_state)) in
      let* (result_new_state, result_events) :=
        call_handle_receive_lock_expired channel_identifier channel_state
          state_change block_number in
      let result_events :=
        match get_lock (partner_state result_new_state) secrethash with
        | None =>
            let transfer := transfer initiator_state in
            let unlock_failed :=
              EventUnlockClaimFailed (transfer_payment_identifier transfer)
                (lock_secrethash (transfer_lock transfer)) "Lock expired" in
            result_events ++ [unlock_failed]
        | Some _ => result_events
        end in
      ret (mkTransitionResult (Some payment_state) result_events)
  end.

Definition handle_offchain_secretreveal (payment_state : option InitiatorPaymentState)
    (state_change : StateChange) (block_number : BlockNumber)
    : Py (TransitionResult InitiatorPaymentState) :=
  subdispatch_to_all_initiatortransfer payment_state state_change block_number.

Definition handle_onchain_secretreveal (payment_state : option InitiatorPaymentState)
    (state_change : StateChange) (block_number : BlockNumber)
    : Py (TransitionResult InitiatorPaymentState) :=
  subdispatch_to_all_initiatortransfer payment_state state_change block_number.

(** The attempt of the mapping is the object handed to the sub-machine: the
    entry under [secrethash] is that object as the call left it. *)
Definition handle_secretrequest (payment_state : option InitiatorPaymentState)
    (state_change : StateChange) (block_number : BlockNumber)
    : Py (TransitionResult InitiatorPaymentState) :=
  let* payment_state := deref payment_state in
  let* secrethash := deref (sc_secrethash state_change) in
  match PyDict.get (initiator_transfers payment_state) secrethash with
  | None => ret (mkTransitionResult (Some payment_state) [])
  | Some initiator_state =>
      let* (sub_iteration, initiator_state) :=
        subdispatch_to_initiatortransfer initiator_state state_change
          block_number in
      let payment_state :=
        with_transfers payment_state
          (PyDict.setitem (initiator_transfers payment_state) secrethash
             initiator_state) in
      ret (mkTransitionResult (Some payment_state) (events sub_iteration))
  end.

(** The [if]/[elif] chain of [state_transition]: the handler of the state
    change, before the finalization pass. *)
Definition state_transition_handler (payment_state : option InitiatorPaymentState)
    (state_change : StateChange) (block_number : BlockNumber)
    : Py (TransitionResult InitiatorPaymentState) :=
  match state_change with
  | Block _ _ => handle_block payment_state state_change block_number
  | ActionInitInitiator _ _ => handle_init payment_state state_change block_number
  | ReceiveSecretRequest _ _ =>
      handle_secretrequest payment_state state_change block_number
  | ReceiveTransferRefundCancelRoute _ _ _ =>
      handle_transferrefundcancelroute payment_state state_change block_number
  | ActionCancelPayment => handle_cancelpayment payment_state
  | ReceiveSecretReveal _ _ =>
      handle_offchain_secretreveal payment_state state_change block_number
  | ReceiveLockExpired _ _ =>
      handle_lock_expired payment_state state_change block_number
  | ContractReceiveSecretReveal _ =>
      handle_onchain_secretreveal payment_state state_change block_number
  | Unhandled _ => ret (mkTransitionResult payment_state [])
  end.

Definition state_transition (payment_state : option InitiatorPaymentState)
    (state_change : StateChange) (block_number : BlockNumber)
    : Py (TransitionResult InitiatorPaymentState) :=
  let* iteration :=
    state_transition_handler payment_state state_change block_number in
  ret (clear_if_finalized iteration).
End Manager.

(** ** A concrete network

    Small collaborators on which the functions of the module can be run: a
    channel state carries its two network identifiers, the locks the partner
    holds and whether it takes refunds; a route is the identifier of its first
    channel. *)
Module Scenario.
Record NettingChannel := mkNettingChannel {
  nc_payment_network : string;
  nc_token_network : string;
  nc_partner_locks : list HashTimeLockState;
  nc_takes_refunds : bool;
}.

Record LockedTransfer := mkLockedTransfer {
  lt_payment_identifier : Z;
  lt_lock : HashTimeLockState;
}.

#[global] Instance ext : External := {|
  NettingChannelState := NettingChannel;
  NettingChannelEndState := list HashTimeLockState;
  Random := Z;
  RouteState := Z;
  LockedTransferUnsignedState := LockedTransfer;
  LockedTransferSignedState := LockedTransfer;
  SendSecretReveal := string;
  ForeignEvent := string;
  Details := unit;
  chan_payment_network_identifier := nc_payment_network;
  chan_token_network_identifier := nc_token_network;
  partner_state := nc_partner_locks;
  transfer_lock := lt_lock;
  transfer_payment_identifier := lt_payment_identifier;
  refund_lock := lt_lock;
  sha3 := λ secret, String.append "#" secret;
|}.

Definition find_lock (locks : list HashTimeLockState) (secrethash : string)
    : option HashTimeLockState :=
  List.find (λ l, bool_decide (lock_secrethash l = secrethash)) locks.

(** An expired lock is dropped from the partner's table. *)
Definition expire (block_number : Z) (secrethash : option string)
    (c : NettingChannel) : NettingChannel :=
  mkNettingChannel (nc_payment_network c) (nc_token_network c)
    (List.filter
       (λ l, negb (bool_decide (Some (lock_secrethash l) = secrethash) &&
                   bool_decide (lock_expiration l < block_number)))
       (nc_partner_locks c))
    (nc_takes_refunds c).

(** Modelled from the spec: the [channel] module is not part of the sources
    at hand; the four operations are those of its interface table. *)
#[global] Instance chan : Channel := {|
  refund_transfer_matches_received refund original :=
    bool_decide (lt_payment_identifier refund = lt_payment_identifier original);
  handle_receive_refundtransfercancelroute channel_state refund :=
    mkRefundOutcome (nc_takes_refunds channel_state)
      [EventForeign (if nc_takes_refunds channel_state
                     then "SendProcessed" else "EventInvalidReceivedTransferRefund")]
      channel_state;
  handle_receive_lock_expired channel_state state_change block_number :=
    let after := expire block_number (sc_secrethash state_change) channel_state in
    mkChannelIteration after [EventForeign "SendProcessed"] after;
  get_lock := find_lock;
|}.

(** The first route whose channel is in the map. *)
Fixpoint next_channel (channels : gmap Z NettingChannel) (routes : list Z)
    : option Z :=
  match routes with
  | [] => None
  | r :: routes =>
      if bool_decide (is_Some (channels !! r)) then Some r
      else next_channel channels routes
  end.

(** Modelled from the spec: the [initiator] module is not part of the
    sources at hand.  "If a route is found, emits a locked transfer on the
    chosen channel and returns a fresh RouteAttempt.  If no route is found,
    returns absent state plus a PaymentSentFailed effect."  The sub-machine
    reveals the secret on a request, ends on a reveal and expires with its
    lock. *)
#[global] Instance init : Initiator := {|
  try_new_route old channels routes description prng block_number :=
    match next_channel channels routes with
    | Some channel_identifier =>
        let lock :=
          mkHashTimeLockState (td_amount description) (block_number + 10)
            (td_secrethash description) in
        let attempt :=
          mkInitiatorTransferState description channel_identifier
            (mkLockedTransfer (td_payment_identifier description) lock)
            None false in
        mkRouteIteration
          (mkTransitionResult (Some attempt) [EventForeign "SendLockedTransfer"])
          channels (prng + 1)
    | None =>
        mkRouteIteration
          (mkTransitionResult None
             [EventPaymentSentFailed
                (td_payment_network_identifier description)
                (td_token_network_identifier description)
                (td_payment_identifier description) (td_target description)
                "there is no route available"])
          channels prng
    end;
  initiator_state_transition attempt state_change channel_state prng block_number :=
    match state_change with
    | ReceiveSecretRequest _ _ =>
        let revealed :=
          mkInitiatorTransferState (transfer_description attempt)
            (channel_identifier attempt) (transfer attempt)
            (Some (td_secret (transfer_description attempt))) true in
        mkSubIteration
          (mkTransitionResult (Some revealed) [EventForeign "SendSecretReveal"])
          revealed channel_state (prng + 1)
    | ReceiveSecretReveal _ _ | ContractReceiveSecretReveal _ =>
        mkSubIteration
          (mkTransitionResult None [EventForeign "EventPaymentSentSuccess"])
          attempt channel_state (prng + 1)
    | Block number _ =>
        if bool_decide (lock_expiration (lt_lock (transfer attempt)) < number)
        then mkSubIteration
               (mkTransitionResult None [EventForeign "SendLockExpired"])
               attempt channel_state prng
        else mkSubIteration (mkTransitionResult (Some attempt) [])
               attempt channel_state prng
    | _ =>
        mkSubIteration (mkTransitionResult (Some attempt) [])
          attempt channel_state prng
    end;
|}.

Definition description : TransferDescriptionWithSecretState :=
  mkTransferDescription "net" 1 100 "token" "alice" "carol" "s".

Definition the_lock : HashTimeLockState := mkHashTimeLockState 100 50 "#s".

(** An attempt on channel 7, before and after the secret was revealed. *)
Definition pending : InitiatorTransferState :=
  mkInitiatorTransferState description 7 (mkLockedTransfer 1 the_lock) None false.

Definition revealed : InitiatorTransferState :=
  mkInitiatorTransferState description 7 (mkLockedTransfer 1 the_lock)
    (Some "s") true.

(** A second attempt, on channel 9, under another secret. *)
Definition other : InitiatorTransferState :=
  mkInitiatorTransferState
    (mkTransferDescription "net" 1 100 "token" "alice" "carol" "t") 9
    (mkLockedTransfer 1 (mkHashTimeLockState 100 60 "#t")) (Some "t") true.

Definition payment : InitiatorPaymentState :=
  mkInitiatorPaymentState [("#s", pending)] [].

Definition payment2 : InitiatorPaymentState :=
  mkInitiatorPaymentState [("#s", pending); ("#t", other)] [].

(** A payment whose one attempt is past the reveal. *)
Definition revealed_payment : InitiatorPaymentState :=
  mkInitiatorPaymentState [("#s", revealed)] [].

Definition open_channel : NettingChannel :=
  mkNettingChannel "net" "token" [the_lock] true.

Definition strict_channel : NettingChannel :=
  mkNettingChannel "net" "token" [the_lock] false.

(** Channel 7 is known, and so is channel 8 as an alternative. *)
Definition heap : Heap :=
  mkHeap (<[7 := open_channel]> (<[8 := open_channel]> ∅)) 0.

Definition strict_heap : Heap := mkHeap (<[7 := strict_channel]> ∅) 0.

(** No channel is known. *)
Definition bare_heap : Heap := mkHeap ∅ 0.

(** The channels of the two attempts of [payment2]. *)
Definition both_heap : Heap :=
  mkHeap (<[7 := open_channel]> (<[9 := strict_channel]> ∅)) 0.

(** Only the channel of the second attempt. *)
Definition second_heap : Heap := mkHeap (<[9 := strict_channel]> ∅) 0.

(** The state changes carry no further fields. *)
Definition nothing : Details := tt.

(** The one alternative route, through channel 8. *)
Definition alternative : list RouteState := [8].

(** The attempt [try_new_route] makes on it at block 5 under the secret "n". *)
Definition retried : InitiatorTransferState :=
  mkInitiatorTransferState
    (mkTransferDescription "net" 1 100 "token" "alice" "carol" "n") 8
    (mkLockedTransfer 1 (mkHashTimeLockState 100 15 "#n")) None false.

Definition refund : LockedTransfer := mkLockedTransfer 1 the_lock.

Definition bad_refund : LockedTransfer :=
  mkLockedTransfer 1 (mkHashTimeLockState 99 50 "#s").
End Scenario.

(** ** Readings of the cancellation

    What [handle_cancelpayment] emits for one attempt it cancels: the events
    of [cancel_current_route], then the payment failure with the network
    identifiers of the channel state. *)
Section Readings.
Context `{Ext : External}.

Definition cancelpayment_events (channel_state : NettingChannelState)
    (initiator_state : InitiatorTransferState) : list Event :=
  events_for_cancel_current_route (transfer_description initiator_state) ++
  [EventPaymentSentFailed
     (chan_payment_network_identifier channel_state)
     (chan_token_network_identifier channel_state)
     (td_payment_identifier (transfer_description initiator_state))
     (td_target (transfer_description initiator_state))
     "user canceled payment"].

(** The same for an attempt of the mapping, through the channel map. *)
Definition cancelpayment_events_in (channels : ChannelMap)
    (entry : SecretHash * InitiatorTransferState) : list Event :=
  match channels !! channel_identifier entry.2 with
  | Some channel_state => cancelpayment_events channel_state entry.2
  | None => []
  end.

Definition cancellable (entry : SecretHash * InitiatorTransferState) : bool :=
  can_cancel (Some entry.2).
End Readings.

(** ** The janitor of subprocesses (raiden/utils/nursery.py)

    [Janitor._free_resources] runs with the lock of the janitor held, so the
    set of processes does not change under it and its three loops visit the
    processes in one and the same order: the list [_processes].  What the
    function does is what it asks of the processes and of the log, in order;
    the answer of a process to [wait] is its exit code, or the
    [TimeoutExpired] the call raises. *)
Module Nursery.
Inductive Signal := SIGINT | SIGKILL.

Inductive WaitResult :=
| Exited (exit_code : Z)
| TimeoutExpired.

Definition STATUS_CODE_FOR_SUCCESS : Z := 0.

Section Janitor.
Context {Popen Timeout : Type}.

Inductive Call :=
| send_signal (p : Popen) (s : Signal)
| wait (p : Popen) (timeout : Timeout)
| communicate (p : Popen)
| log_warning (message : string) (p : Popen).

(** The fields of the janitor the function reads. *)
Record Janitor := mkJanitor {
  stop_timeout : Timeout;
  _processes : list Popen;
}.

(** How each process answers [p.wait(timeout=...)]. *)
Variable waited : Popen → Timeout → WaitResult.

(** The [for] loop inside the [try]: the calls made, and the process whose
    [wait] raised [TimeoutExpired], if one did. *)
Fixpoint wait_for_exit (timeout : Timeout) (processes : list Popen)
    : list Call * option Popen :=
  match processes with
  | [] => ([], None)
  | p :: processes =>
      match waited p timeout with
      | TimeoutExpired => ([wait p timeout], Some p)
      | Exited exit_code =>
          let warning :=
            if bool_decide (exit_code ≠ STATUS_CODE_FOR_SUCCESS)
            then [communicate p; log_warning "Process did not exit cleanly" p]
            else [] in
          let (calls, expired) := wait_for_exit timeout processes in
          (wait p timeout :: warning ++ calls, expired)
      end
  end.

(** The calls the loop makes for one process: the [wait], and for an exit
    code other than success the [communicate] and the warning. *)
Definition wait_calls (timeout : Timeout) (p : Popen) : list Call :=
  wait p timeout ::
  match waited p timeout with
  | Exited exit_code =>
      if bool_decide (exit_code ≠ STATUS_CODE_FOR_SUCCESS)
      then [communicate p; log_warning "Process did not exit cleanly" p]
      else []
  | TimeoutExpired => []
  end.

Definition _free_resources (self : Janitor) : list Call :=
  let interrupts := map (λ p, send_signal p SIGINT) (_processes self) in
  let (waits, expired) := wait_for_exit (stop_timeout self) (_processes self) in
  let kills :=
    match expired with
    | Some p =>
        log_warning
          "Process did not stop in time. Sending SIGKILL to all remaining processes!"
          p ::
        map (λ p, send_signal p SIGKILL) (_processes self)
    | None => []
    end in
  interrupts ++ waits ++ kills.
End Janitor.

(** Three processes, named by number: the second one leaves with an error
    code, the third one does not leave in time. *)
Definition answers (p : Z) (timeout : Z) : WaitResult :=
  if bool_decide (p = 3) then TimeoutExpired
  else if bool_decide (p = 2) then Exited 1 else Exited 0.

Definition janitor : Janitor := mkJanitor 20 [1; 2; 3; 4].

Definition calm_janitor : Janitor := mkJanitor 20 [1; 2].
End Nursery.

(** ** Facts about dictionaries *)
Section PyDictFacts.
Context {K V : Type} `{EqDecision K}.
Implicit Types (d : PyDict.dict K V) (k : K) (v : V).

Lemma get_setitem_eq d k v : PyDict.get (PyDict.setitem d k v) k = Some v.
Proof.
  induction d as [|[k' v'] d IH]; simpl.
  - by rewrite decide_True.
  - destruct (decide (k' = k)) as [->|Hne]; simpl.
    + by rewrite decide_True.
    + by rewrite decide_False.
Qed.

Lemma get_setitem_ne d k k' v :
  k ≠ k' → PyDict.get (PyDict.setitem d k v) k' = PyDict.get d k'.
Proof.
  intros Hne. induction d as [|[k0 v0] d IH]; simpl.
  - by rewrite decide_False.
  - destruct (decide (k0 = k)) as [->|Hne0]; simpl.
    + by rewrite !decide_False.
    + destruct (decide (k0 = k')); auto.
Qed.

Lemma get_delitem_eq d k : PyDict.get (PyDict.delitem d k) k = None.
Proof.
  induction d as [|[k0 v0] d IH]; simpl; auto.
  destruct (decide (k0 = k)); simpl; auto. by rewrite decide_False.
Qed.

Lemma get_delitem_ne d k k' :
  k ≠ k' → PyDict.get (PyDict.delitem d k) k' = PyDict.get d k'.
Proof.
  intros Hne. induction d as [|[k0 v0] d IH]; simpl; auto.
  destruct (decide (k0 = k)) as [->|Hne0]; simpl.
  - by rewrite decide_False.
  - destruct (decide (k0 = k')); auto.
Qed.

(** Overwriting the value of a key that is there leaves the keys and their
    order alone. *)
Lemma keys_setitem_present d k v :
  is_Some (PyDict.get d k) → PyDict.keys (PyDict.setitem d k v) = PyDict.keys d.
Proof.
  induction d as [|[k0 v0] d IH]; simpl.
  - by intros [? ?].
  - destruct (decide (k0 = k)) as [->|Hne0]; simpl; intros Hs; auto.
    f_equal. by apply IH.
Qed.

Lemma get_Some_keys d k v : PyDict.get d k = Some v → In k (PyDict.keys d).
Proof.
  induction d as [|[k0 v0] d IH]; simpl; [done|].
  destruct (decide (k0 = k)); auto.
Qed.

Lemma keys_get_Some d k : In k (PyDict.keys d) → is_Some (PyDict.get d k).
Proof.
  induction d as [|[k0 v0] d IH]; simpl; [done|].
  destruct (decide (k0 = k)); eauto. intros [?|?]; [done|auto].
Qed.

Lemma get_None_nil d k : d = [] → PyDict.get d k = None.
Proof. by intros ->. Qed.
End PyDictFacts.

(** ** Properties of the manager *)
Section Properties.
Context `{Ext : External} {Chan : Channel} {Init : Initiator}.
Implicit Types (payment_state : InitiatorPaymentState) (h : Heap)
  (state_change : StateChange) (block_number : Z).

(** Runs the straight-line part of a handler. *)
Ltac run :=
  repeat (progress (cbn [bind ret raise deref assert getitem channel_getitem
                         channel_get channel_store prng_store channels_store
                         get_heap sc_secrethash sc_refund_transfer sc_secret
                         sc_routes sc_transfer_description new_state events
                         fst snd] in *)).

(** Runs a handler to its end, down to the calls of the collaborators. *)
Ltac exec :=
  cbv beta iota zeta delta
    [bind ret raise deref assert getitem channel_getitem channel_get
     channel_store prng_store channels_store get_heap] in *;
  cbn [new_state events fst snd channelidentifiers_to_channels
       pseudo_random_generator initiator_transfers cancelled_channels] in *.

Lemma clear_if_finalized_nonempty payment_state evs :
  initiator_transfers payment_state ≠ [] →
  clear_if_finalized (mkTransitionResult (Some payment_state) evs) =
  mkTransitionResult (Some payment_state) evs.
Proof.
  unfold clear_if_finalized; cbn. by destruct (initiator_transfers _).
Qed.

Lemma get_Some_nonempty {V} (d : PyDict.dict string V) k v :
  PyDict.get d k = Some v → d ≠ [].
Proof. by destruct d. Qed.

(** What [state_transition] returns never is a present state without
    attempts. *)
Lemma state_transition_retires_empty (before : option InitiatorPaymentState)
    state_change block_number h iteration h' payment_state :
  state_transition before state_change block_number h = Returns iteration h' →
  new_state iteration = Some payment_state →
  initiator_transfers payment_state ≠ [].
Proof.
  unfold state_transition, bind.
  destruct (state_transition_handler _ _ _ _) as [it h1|e]; [|done].
  cbn. intros [= <- <-]. unfold clear_if_finalized.
  destruct (new_state it) as [st|] eqn:Hst; [|by rewrite Hst].
  destruct (initiator_transfers st) eqn:Hd; cbn; [done|].
  rewrite Hst. intros [= <-]. by rewrite Hd.
Qed.

(** C5. [state_transition] is the handler of the state change followed by
    the finalization pass: when the handler returns a present state whose
    mapping of attempts is empty, the returned state is absent and the
    handler's events are kept; in every other case the handler's result is
    returned as it is (and an exception of the handler propagates). *)
Theorem C5_finalization_pass (before : option InitiatorPaymentState)
    state_change block_number h :
  match state_transition_handler before state_change block_number h with
  | Returns iteration h' =>
      state_transition before state_change block_number h =
      Returns
        (match new_state iteration with
         | Some state =>
             match initiator_transfers state with
             | [] => mkTransitionResult None (events iteration)
             | _ :: _ => iteration
             end
         | None => iteration
         end) h'
  | Raises e =>
      state_transition before state_change block_number h = Raises e
  end.
Proof.
  unfold state_transition, bind.
  destruct (state_transition_handler _ _ _ _) as [it h'|e]; [|done].
  cbn. f_equal. unfold clear_if_finalized.
  destruct (new_state it) as [st|]; [|done].
  by destruct (initiator_transfers st).
Qed.

(** C6. With a payment state present, [handle_init] ignores the state
    change: it returns the state it was given and no events, whatever the
    description and the routes, and touches neither channels nor generator.
    Through [state_transition] the same holds for every state that has an
    attempt. *)
Theorem C6_second_init_is_noop payment_state description routes block_number h :
  handle_init (Some payment_state) (ActionInitInitiator description routes)
    block_number h =
  Returns (mkTransitionResult (Some payment_state) []) h ∧
  (initiator_transfers payment_state ≠ [] →
   state_transition (Some payment_state) (ActionInitInitiator description routes)
     block_number h =
   Returns (mkTransitionResult (Some payment_state) []) h).
Proof.
  split; [done|]. intros Hne.
  unfold state_transition, bind; cbn -[clear_if_finalized].
  by rewrite clear_if_finalized_nonempty.
Qed.

(** How [state_transition] follows a handler that returned a state with
    attempts. *)
Lemma state_transition_of_handler (before : option InitiatorPaymentState)
    state_change block_number h payment_state evs h' :
  state_transition_handler before state_change block_number h =
    Returns (mkTransitionResult (Some payment_state) evs) h' →
  initiator_transfers payment_state ≠ [] →
  state_transition before state_change block_number h =
    Returns (mkTransitionResult (Some payment_state) evs) h'.
Proof.
  intros Hh Hne. unfold state_transition, bind. rewrite Hh.
  cbn -[clear_if_finalized]. by rewrite clear_if_finalized_nonempty.
Qed.

Lemma state_transition_raises (before : option InitiatorPaymentState)
    state_change block_number h e :
  state_transition_handler before state_change block_number h = Raises e →
  state_transition before state_change block_number h = Raises e.
Proof. intros Hh. unfold state_transition, bind. by rewrite Hh. Qed.

(** Refunds that are dropped.  A refund whose lock secrethash is not a key
    of the mapping is a no-op; so is a refund that
    matches an attempt whose channel is in the channel map, but whose lock
    differs from the lock sent on secrethash, amount or expiration, or that
    [refund_transfer_matches_received] turns down.  The handler returns the
    state it was given and no events, and leaves the heap alone;
    [state_transition] returns the same for a state that has an attempt. *)
Theorem rejected_refund_is_noop payment_state routes refund secret
    block_number h :
  (PyDict.get (initiator_transfers payment_state)
     (lock_secrethash (refund_lock refund)) = None ∨
   ∃ initiator_state,
     PyDict.get (initiator_transfers payment_state)
       (lock_secrethash (refund_lock refund)) = Some initiator_state ∧
     is_Some (channelidentifiers_to_channels h !!
                channel_identifier initiator_state) ∧
     (lock_secrethash (refund_lock refund) ≠
        lock_secrethash (transfer_lock (transfer initiator_state)) ∨
      lock_amount (refund_lock refund) ≠
        lock_amount (transfer_lock (transfer initiator_state)) ∨
      lock_expiration (refund_lock refund) ≠
        lock_expiration (transfer_lock (transfer initiator_state)) ∨
      refund_transfer_matches_received refund (transfer initiator_state) = false)) →
  handle_transferrefundcancelroute (Some payment_state)
    (ReceiveTransferRefundCancelRoute routes refund secret) block_number h =
  Returns (mkTransitionResult (Some payment_state) []) h ∧
  (initiator_transfers payment_state ≠ [] →
   state_transition (Some payment_state)
     (ReceiveTransferRefundCancelRoute routes refund secret) block_number h =
   Returns (mkTransitionResult (Some payment_state) []) h).
Proof.
  intros Hcase.
  assert (handle_transferrefundcancelroute (Some payment_state)
            (ReceiveTransferRefundCancelRoute routes refund secret)
            block_number h =
          Returns (mkTransitionResult (Some payment_state) []) h) as Hh.
  { unfold handle_transferrefundcancelroute. run.
    destruct Hcase as [->|(a & -> & [cs Hcs] & Hbad)]; [done|].
    unfold bind at 1, channel_getitem. rewrite Hcs.
    set (valid_lock := (_ && _ && _)%bool).
    assert (negb valid_lock || negb (refund_transfer_matches_received refund (transfer a))
            = true) as ->; [|done].
    destruct Hbad as [Hne|[Hne|[Hne|Hno]]].
    - subst valid_lock. by rewrite (bool_decide_eq_false_2 _ Hne).
    - subst valid_lock. rewrite (bool_decide_eq_false_2 _ Hne).
      by rewrite andb_false_r.
    - subst valid_lock. rewrite (bool_decide_eq_false_2 _ Hne).
      by rewrite andb_false_r.
    - rewrite Hno. by rewrite orb_true_r. }
  split; [done|]. intros Hne. by apply state_transition_of_handler.
Qed.

(** C7, for an attempt whose channel is known.  The lock-expired message of
    an attempt whose channel is in the channel map: the channel handler runs
    on that channel, its events are returned, and an
    [EventUnlockClaimFailed] ("Lock expired") is appended exactly when the
    partner end of the channel state it returned holds no lock for the
    secrethash of the attempt's transfer; the payment state is returned as
    it was.  A secrethash that matches no attempt is a no-op. *)
Theorem C7_lock_expired payment_state secrethash rest block_number h :
  (∀ initiator_state channel_state,
     PyDict.get (initiator_transfers payment_state) secrethash =
       Some initiator_state →
     channelidentifiers_to_channels h !! channel_identifier initiator_state =
       Some channel_state →
     let result :=
       handle_receive_lock_expired channel_state
         (ReceiveLockExpired secrethash rest) block_number in
     let unlock_failed :=
       EventUnlockClaimFailed
         (transfer_payment_identifier (transfer initiator_state))
         (lock_secrethash (transfer_lock (transfer initiator_state)))
         "Lock expired" in
     let appended :=
       match get_lock (partner_state (chan_new_state result))
               (lock_secrethash (transfer_lock (transfer initiator_state))) with
       | None => [unlock_failed]
       | Some _ => []
       end in
     let h' :=
       mkHeap (<[channel_identifier initiator_state := chan_channel_state result]>
                 (channelidentifiers_to_channels h))
              (pseudo_random_generator h) in
     handle_lock_expired (Some payment_state)
       (ReceiveLockExpired secrethash rest) block_number h =
     Returns (mkTransitionResult (Some payment_state)
                (chan_events result ++ appended)) h' ∧
     state_transition (Some payment_state)
       (ReceiveLockExpired secrethash rest) block_number h =
     Returns (mkTransitionResult (Some payment_state)
                (chan_events result ++ appended)) h') ∧
  (PyDict.get (initiator_transfers payment_state) secrethash = None →
   handle_lock_expired (Some payment_state)
     (ReceiveLockExpired secrethash rest) block_number h =
   Returns (mkTransitionResult (Some payment_state) []) h).
Proof.
  split.
  - intros a cs Ha Hcs result unlock_failed appended h'.
    assert (handle_lock_expired (Some payment_state)
              (ReceiveLockExpired secrethash rest) block_number h =
            Returns (mkTransitionResult (Some payment_state)
                       (chan_events result ++ appended)) h') as Hh.
    { unfold handle_lock_expired. run. rewrite Ha.
      unfold bind at 1, channel_getitem. rewrite Hcs.
      unfold call_handle_receive_lock_expired. run.
      subst appended result unlock_failed h'.
      destruct (get_lock _ _); [|done]. by rewrite app_nil_r. }
    split; [done|]. apply state_transition_of_handler; [done|].
    by eapply get_Some_nonempty.
  - intros Hnone. unfold handle_lock_expired. run. by rewrite Hnone.
Qed.

(** C8. An accepted refund: the lock equals the lock sent, the structural
    check passes, the attempt's channel is in the map and the channel takes
    the refund.  The description handed to [try_new_route] is the
    attempt's description with the secret of the state change in place of
    the old one; the six other fields are the old ones.  The retry happens
    for an attempt that can still be cancelled; an attempt past the reveal
    is left as it is and only the channel's events are returned. *)
Theorem C8_retry_description payment_state routes refund secret block_number h
    initiator_state channel_state :
  PyDict.get (initiator_transfers payment_state)
    (lock_secrethash (refund_lock refund)) = Some initiator_state →
  channelidentifiers_to_channels h !! channel_identifier initiator_state =
    Some channel_state →
  lock_secrethash (refund_lock refund) =
    lock_secrethash (transfer_lock (transfer initiator_state)) →
  lock_amount (refund_lock refund) =
    lock_amount (transfer_lock (transfer initiator_state)) →
  lock_expiration (refund_lock refund) =
    lock_expiration (transfer_lock (transfer initiator_state)) →
  refund_transfer_matches_received refund (transfer initiator_state) = true →
  refund_is_valid (handle_receive_refundtransfercancelroute channel_state refund)
    = true →
  let old_description := transfer_description initiator_state in
  let outcome := handle_receive_refundtransfercancelroute channel_state refund in
  let channels :=
    <[channel_identifier initiator_state := refund_channel_state outcome]>
      (channelidentifiers_to_channels h) in
  ∃ new_description : TransferDescriptionWithSecretState,
    td_secret new_description = secret ∧
    td_payment_network_identifier new_description =
      td_payment_network_identifier old_description ∧
    td_payment_identifier new_description = td_payment_identifier old_description ∧
    td_amount new_description = td_amount old_description ∧
    td_token_network_identifier new_description =
      td_token_network_identifier old_description ∧
    td_initiator new_description = td_initiator old_description ∧
    td_target new_description = td_target old_description ∧
    handle_transferrefundcancelroute (Some payment_state)
      (ReceiveTransferRefundCancelRoute routes refund secret) block_number h =
    match revealsecret initiator_state with
    | Some _ =>
        Returns (mkTransitionResult (Some payment_state) (refund_events outcome))
          (mkHeap channels (pseudo_random_generator h))
    | None =>
        let route :=
          try_new_route (Some initiator_state) channels routes new_description
            (pseudo_random_generator h) block_number in
        match new_state (route_iteration route) with
        | Some new_initiator =>
            Returns
              (mkTransitionResult
                 (Some (mkInitiatorPaymentState
                          (PyDict.setitem (initiator_transfers payment_state)
                             (lock_secrethash
                                (transfer_lock (transfer new_initiator)))
                             new_initiator)
                          (cancelled_channels payment_state ++
                             [channel_identifier initiator_state])))
                 (refund_events outcome ++
                  EventUnlockFailed (td_payment_identifier old_description)
                    (td_secrethash old_description) "route was canceled" ::
                  events (route_iteration route)))
              (mkHeap (route_channels route) (route_prng route))
        | None => Raises AssertionError
        end
    end.
Proof.
  intros Ha Hcs Hsh Ham Hex Hmatch Hvalid old_description outcome channels.
  exists (mkTransferDescription
            (td_payment_network_identifier old_description)
            (td_payment_identifier old_description)
            (td_amount old_description)
            (td_token_network_identifier old_description)
            (td_initiator old_description) (td_target old_description) secret).
  do 7 (split; [done|]).
  unfold handle_transferrefundcancelroute. run. rewrite Ha.
  unfold bind at 1, channel_getitem. rewrite Hcs.
  rewrite !bool_decide_eq_true_2 by done. rewrite Hmatch. cbn [andb negb orb].
  unfold call_handle_receive_refundtransfercancelroute. run.
  rewrite Hvalid. cbn [negb]. fold outcome.
  unfold maybe_try_new_route, can_cancel, cancel_current_route, can_cancel.
  destruct (revealsecret initiator_state) eqn:Hreveal.
  - run. by rewrite app_nil_r.
  - unfold call_try_new_route, with_transfers. exec.
    fold old_description channels.
    set (route := try_new_route _ _ _ _ _ _).
    destruct (new_state (route_iteration route)) as [new_initiator|] eqn:Hnew.
    + rewrite bool_decide_eq_true_2 by eauto. done.
    + rewrite bool_decide_eq_false_2; [done|]. by intros [? ?].
Qed.

(** When the channel turns an otherwise valid refund down, the handler
    returns an empty list: the events of the channel, gathered in [events]
    one line above, are not what it returns. *)
Lemma refund_refused_returns_no_events payment_state routes refund secret
    block_number h initiator_state channel_state :
  PyDict.get (initiator_transfers payment_state)
    (lock_secrethash (refund_lock refund)) = Some initiator_state →
  channelidentifiers_to_channels h !! channel_identifier initiator_state =
    Some channel_state →
  lock_secrethash (refund_lock refund) =
    lock_secrethash (transfer_lock (transfer initiator_state)) →
  lock_amount (refund_lock refund) =
    lock_amount (transfer_lock (transfer initiator_state)) →
  lock_expiration (refund_lock refund) =
    lock_expiration (transfer_lock (transfer initiator_state)) →
  refund_transfer_matches_received refund (transfer initiator_state) = true →
  refund_is_valid (handle_receive_refundtransfercancelroute channel_state refund)
    = false →
  handle_transferrefundcancelroute (Some payment_state)
    (ReceiveTransferRefundCancelRoute routes refund secret) block_number h =
  Returns (mkTransitionResult (Some payment_state) [])
    (mkHeap
       (<[channel_identifier initiator_state :=
            refund_channel_state
              (handle_receive_refundtransfercancelroute channel_state refund)]>
          (channelidentifiers_to_channels h))
       (pseudo_random_generator h)).
Proof.
  intros Ha Hcs Hsh Ham Hex Hmatch Hvalid.
  unfold handle_transferrefundcancelroute. run. rewrite Ha.
  unfold bind at 1, channel_getitem. rewrite Hcs.
  rewrite !bool_decide_eq_true_2 by done. rewrite Hmatch. cbn [andb negb orb].
  unfold call_handle_receive_refundtransfercancelroute. run.
  by rewrite Hvalid.
Qed.

(** C10. [handle_secretrequest] neither adds nor removes an attempt,
    whatever the sub-machine returns, absent state included: when it
    returns, the state is present, its keys are the keys it had, in the
    same order, and the cancelled channels are the same.  It raises only
    [KeyError], for a matching attempt whose channel is not in the map.
    [state_transition] hands the same state on for a state that has an
    attempt. *)
Theorem C10_secretrequest_keeps_keys payment_state secrethash rest
    block_number h :
  match handle_secretrequest (Some payment_state)
          (ReceiveSecretRequest secrethash rest) block_number h with
  | Returns iteration _ =>
      (∃ payment_state',
         new_state iteration = Some payment_state' ∧
         PyDict.keys (initiator_transfers payment_state') =
           PyDict.keys (initiator_transfers payment_state) ∧
         cancelled_channels payment_state' = cancelled_channels payment_state) ∧
      (initiator_transfers payment_state ≠ [] →
       ∃ h',
         state_transition (Some payment_state)
           (ReceiveSecretRequest secrethash rest) block_number h =
         Returns iteration h')
  | Raises e =>
      e = KeyError ∧
      ∃ initiator_state,
        PyDict.get (initiator_transfers payment_state) secrethash =
          Some initiator_state ∧
        channelidentifiers_to_channels h !! channel_identifier initiator_state =
          None
  end.
Proof.
  destruct (handle_secretrequest _ _ _ _) as [it h'|e] eqn:Hh; revert Hh;
    unfold handle_secretrequest; run;
    destruct (PyDict.get _ secrethash) as [a|] eqn:Ha.
  - unfold subdispatch_to_initiatortransfer, bind at 1 2, channel_getitem.
    destruct (_ !! _) as [cs|] eqn:Hcs; [|done].
    unfold call_initiator_state_transition. run. intros [= <- <-]. split.
    + eexists; split; [done|]. cbn. split; [|done].
      apply keys_setitem_present. by rewrite Ha.
    + intros Hne. eexists. apply state_transition_of_handler.
      * cbn [state_transition_handler]. unfold handle_secretrequest. run.
        rewrite Ha. unfold subdispatch_to_initiatortransfer, bind at 1 2,
          channel_getitem. rewrite Hcs.
        unfold call_initiator_state_transition. run. done.
      * cbn. intros Hnil. apply (f_equal PyDict.keys) in Hnil.
        rewrite keys_setitem_present in Hnil by (by rewrite Ha).
        by destruct (initiator_transfers payment_state).
  - intros [= <- <-]. split; [by eexists|].
    intros Hne. eexists. apply state_transition_of_handler; [|done].
    cbn [state_transition_handler]. unfold handle_secretrequest. run.
    by rewrite Ha.
  - unfold subdispatch_to_initiatortransfer, bind at 1 2, channel_getitem.
    destruct (_ !! _) as [cs|] eqn:Hcs.
    + unfold call_initiator_state_transition. run. done.
    + intros [= <-]. split; [done|]. by exists a.
  - done.
Qed.

(** The loop of [handle_cancelpayment] over a snapshot of distinct keys,
    each of an attempt whose channel is in the map: it returns, leaves the
    heap alone and only extends the cancelled channels and the events; an
    attempt outside the snapshot or past the reveal stays, an attempt
    before the reveal goes. *)
Lemma handle_cancelpayment_loop_spec h snapshot :
  ∀ payment_state evs,
  NoDup snapshot →
  (∀ k, k ∈ snapshot →
     ∃ a, PyDict.get (initiator_transfers payment_state) k = Some a ∧
          is_Some (channelidentifiers_to_channels h !! channel_identifier a)) →
  ∃ payment_state' more_channels more_events,
    handle_cancelpayment_loop snapshot payment_state evs h =
      Returns (payment_state', evs ++ more_events) h ∧
    cancelled_channels payment_state' =
      cancelled_channels payment_state ++ more_channels ∧
    (∀ k, k ∉ snapshot →
       PyDict.get (initiator_transfers payment_state') k =
       PyDict.get (initiator_transfers payment_state) k) ∧
    (∀ k a, k ∈ snapshot →
       PyDict.get (initiator_transfers payment_state) k = Some a →
       match revealsecret a with
       | Some _ => PyDict.get (initiator_transfers payment_state') k = Some a
       | None =>
           PyDict.get (initiator_transfers payment_state') k = None ∧
           channel_identifier a ∈ more_channels ∧
           EventUnlockFailed (td_payment_identifier (transfer_description a))
             (td_secrethash (transfer_description a)) "route was canceled"
             ∈ more_events ∧
           ∀ channel_state,
             channelidentifiers_to_channels h !! channel_identifier a =
               Some channel_state →
             EventPaymentSentFailed
               (chan_payment_network_identifier channel_state)
               (chan_token_network_identifier channel_state)
               (td_payment_identifier (transfer_description a))
               (td_target (transfer_description a)) "user canceled payment"
               ∈ more_events
       end).
Proof.
  induction snapshot as [|k0 rest IH]; intros payment_state evs Hnd Hin.
  - exists payment_state, [], []. rewrite !app_nil_r.
    repeat split; auto. intros k a Hk. by apply elem_of_nil in Hk.
  - apply NoDup_cons in Hnd as [Hk0 Hnd].
    destruct (Hin k0) as (a0 & Ha0 & cs0 & Hcs0); [by left|].
    cbn [handle_cancelpayment_loop]. unfold getitem. rewrite Ha0.
    unfold bind at 1, ret at 1. unfold bind at 1, channel_getitem.
    rewrite Hcs0. unfold can_cancel, cancel_current_route, can_cancel.
    destruct (revealsecret a0) as [reveal|] eqn:Hreveal.
    + destruct (IH payment_state evs Hnd) as (ps' & mc & me & Hrun & Hc & Hout & Hsnap).
      { intros k Hk. apply Hin. by right. }
      exists ps', mc, me. split; [done|]. split; [done|]. split.
      * intros k Hk. apply Hout. intros ?. apply Hk. by right.
      * intros k a Hk Ha. apply elem_of_cons in Hk as [->|Hk]; [|by apply Hsnap].
        rewrite Ha0 in Ha. injection Ha as <-. rewrite Hreveal.
        by rewrite Hout.
    + exec. unfold with_transfers. cbn [initiator_transfers cancelled_channels].
      set (ps2 := mkInitiatorPaymentState _ _).
      set (evs2 := evs ++ _).
      destruct (IH ps2 evs2 Hnd) as (ps' & mc & me & Hrun & Hc & Hout & Hsnap).
      { intros k Hk. subst ps2. cbn. rewrite get_delitem_ne.
        - apply Hin. by right.
        - intros ->. done. }
      exists ps', (channel_identifier a0 :: mc),
        (events_for_cancel_current_route (transfer_description a0) ++
         [EventPaymentSentFailed (chan_payment_network_identifier cs0)
            (chan_token_network_identifier cs0)
            (td_payment_identifier (transfer_description a0))
            (td_target (transfer_description a0)) "user canceled payment"] ++ me).
      split. { rewrite Hrun. subst evs2. by rewrite <- !app_assoc. }
      split. { rewrite Hc. subst ps2. cbn. by rewrite <- app_assoc. }
      split.
      * intros k Hk. rewrite Hout by (intros ?; apply Hk; by right).
        subst ps2. cbn. apply get_delitem_ne. intros ->. apply Hk. by left.
      * intros k a Hk Ha. apply elem_of_cons in Hk as [->|Hk].
        -- rewrite Ha0 in Ha. injection Ha as <-. rewrite Hreveal.
           split. { rewrite Hout by done. subst ps2. cbn. apply get_delitem_eq. }
           split. { by left. }
           split. { cbn. by left. }
           intros cs Hcs. rewrite Hcs0 in Hcs. injection Hcs as <-.
           cbn. right. by left.
        -- assert (k ≠ k0) as Hne by (intros ->; done).
           specialize (Hsnap k a Hk). subst ps2. cbn in Hsnap.
           rewrite get_delitem_ne in Hsnap by done. specialize (Hsnap Ha).
           destruct (revealsecret a); [done|].
           destruct Hsnap as (? & ? & ? & Hpsf). split; [done|].
           split. { by right. }
           split. { cbn. right. by right. }
           intros cs Hcs. cbn. right. right. by apply Hpsf.
Qed.

(** The cancellation, attempt by attempt.  Cancelling a payment whose
    attempts all have their channel in the channel map: every attempt whose
    [revealsecret] is absent is removed from the mapping, its channel
    identifier is among those appended to [cancelled_channels], and the
    events hold its
    [EventUnlockFailed] ("route was canceled") and its
    [EventPaymentSentFailed] ("user canceled payment"); every attempt whose
    [revealsecret] is present stays under its key as it was.  No key is
    added, channels and generator are untouched, and [state_transition]
    returns the same events with the state retired if no attempt is left. *)
Theorem cancelpayment_with_channels payment_state block_number h :
  PyDict.wf (initiator_transfers payment_state) →
  (∀ k a, PyDict.get (initiator_transfers payment_state) k = Some a →
          is_Some (channelidentifiers_to_channels h !! channel_identifier a)) →
  ∃ payment_state' more_channels evs,
    handle_cancelpayment (Some payment_state) h =
      Returns (mkTransitionResult (Some payment_state') evs) h ∧
    state_transition (Some payment_state) ActionCancelPayment block_number h =
      Returns (mkTransitionResult
                 (match initiator_transfers payment_state' with
                  | [] => None
                  | _ :: _ => Some payment_state'
                  end) evs) h ∧
    cancelled_channels payment_state' =
      cancelled_channels payment_state ++ more_channels ∧
    (∀ k, PyDict.get (initiator_transfers payment_state) k = None →
          PyDict.get (initiator_transfers payment_state') k = None) ∧
    (∀ k a,
       PyDict.get (initiator_transfers payment_state) k = Some a →
       match revealsecret a with
       | Some _ => PyDict.get (initiator_transfers payment_state') k = Some a
       | None =>
           PyDict.get (initiator_transfers payment_state') k = None ∧
           channel_identifier a ∈ more_channels ∧
           EventUnlockFailed (td_payment_identifier (transfer_description a))
             (td_secrethash (transfer_description a)) "route was canceled"
             ∈ evs ∧
           ∀ channel_state,
             channelidentifiers_to_channels h !! channel_identifier a =
               Some channel_state →
             EventPaymentSentFailed
               (chan_payment_network_identifier channel_state)
               (chan_token_network_identifier channel_state)
               (td_payment_identifier (transfer_description a))
               (td_target (transfer_description a)) "user canceled payment"
               ∈ evs
       end).
Proof.
  intros Hwf Hchan.
  destruct (handle_cancelpayment_loop_spec h
              (PyDict.keys (initiator_transfers payment_state))
              payment_state [] Hwf)
    as (ps' & mc & me & Hrun & Hc & Hout & Hsnap).
  { intros k Hk. apply list_elem_of_In, keys_get_Some in Hk as [a Ha]. eauto. }
  assert (handle_cancelpayment (Some payment_state) h =
          Returns (mkTransitionResult (Some ps') me) h) as Hh.
  { unfold handle_cancelpayment. run. unfold bind. by rewrite Hrun. }
  exists ps', mc, me. split; [done|]. split.
  { unfold state_transition, bind. cbn [state_transition_handler].
    rewrite Hh. unfold ret, clear_if_finalized. cbn.
    by destruct (initiator_transfers ps'). }
  split; [done|]. split.
  - intros k Hk. rewrite Hout; [done|].
    intros Hin. apply list_elem_of_In, keys_get_Some in Hin as [a Ha].
    by rewrite Hk in Ha.
  - intros k a Ha. apply Hsnap; [|done].
    apply list_elem_of_In. by eapply get_Some_keys.
Qed.

(** An attempt whose channel is not in the map is skipped by the loop of
    [subdispatch_to_all_initiatortransfer]: the run over a snapshot is the
    run over the snapshot without its key. *)
Lemma subdispatch_to_all_loop_skip state_change block_number k a snapshot :
  ∀ payment_state evs h,
  PyDict.get (initiator_transfers payment_state) k = Some a →
  channelidentifiers_to_channels h !! channel_identifier a = None →
  subdispatch_to_all_loop snapshot payment_state evs state_change block_number h =
  subdispatch_to_all_loop (filter (λ k', k' ≠ k) snapshot) payment_state evs
    state_change block_number h.
Proof.
  induction snapshot as [|k0 rest IH]; intros payment_state evs h Ha Hnone;
    [done|].
  destruct (decide (k0 = k)) as [->|Hne].
  - rewrite filter_cons_False by (by intros ?).
    cbn [subdispatch_to_all_loop]. unfold getitem. rewrite Ha. exec.
    rewrite Hnone. by apply IH.
  - rewrite filter_cons_True by done.
    cbn [subdispatch_to_all_loop]. unfold getitem.
    destruct (PyDict.get (initiator_transfers payment_state) k0) as [a0|]
      eqn:Ha0; [|done].
    unfold call_initiator_state_transition, with_transfers. exec.
    destruct (channelidentifiers_to_channels h !! channel_identifier a0)
      as [cs0|] eqn:Hcs0; [|by apply IH].
    apply IH.
    + destruct (new_state _); cbn.
      * by rewrite get_setitem_ne.
      * rewrite get_delitem_ne by done. by rewrite get_setitem_ne.
    + cbn. rewrite lookup_insert_ne; [done|]. intros Heq.
      rewrite Heq in Hcs0. by rewrite Hnone in Hcs0.
Qed.

(** Such an attempt is in the mapping after the loop, as it was before. *)
Lemma subdispatch_to_all_loop_keeps state_change block_number k a snapshot :
  ∀ payment_state evs h payment_state' evs' h',
  PyDict.get (initiator_transfers payment_state) k = Some a →
  channelidentifiers_to_channels h !! channel_identifier a = None →
  subdispatch_to_all_loop snapshot payment_state evs state_change block_number h =
    Returns (payment_state', evs') h' →
  PyDict.get (initiator_transfers payment_state') k = Some a ∧
  channelidentifiers_to_channels h' !! channel_identifier a = None.
Proof.
  induction snapshot as [|k0 rest IH];
    intros payment_state evs h ps' evs' h' Ha Hnone.
  - cbn. by intros [= <- <- <-].
  - cbn [subdispatch_to_all_loop]. unfold getitem.
    destruct (PyDict.get (initiator_transfers payment_state) k0) as [a0|]
      eqn:Ha0; [|done].
    unfold call_initiator_state_transition, with_transfers. exec.
    destruct (channelidentifiers_to_channels h !! channel_identifier a0)
      as [cs0|] eqn:Hcs0; [|by apply IH].
    assert (k0 ≠ k) as Hne.
    { intros ->. rewrite Ha in Ha0. injection Ha0 as <-.
      by rewrite Hnone in Hcs0. }
    apply IH.
    + destruct (new_state _); cbn.
      * by rewrite get_setitem_ne.
      * rewrite get_delitem_ne by done. by rewrite get_setitem_ne.
    + cbn. rewrite lookup_insert_ne; [done|]. intros Heq.
      rewrite Heq in Hcs0. by rewrite Hnone in Hcs0.
Qed.

(** Over a snapshot of distinct keys of the mapping the loop returns. *)
Lemma subdispatch_to_all_loop_returns state_change block_number snapshot :
  ∀ payment_state evs h,
  NoDup snapshot →
  (∀ k, k ∈ snapshot →
        is_Some (PyDict.get (initiator_transfers payment_state) k)) →
  ∃ payment_state' evs' h',
    subdispatch_to_all_loop snapshot payment_state evs state_change
      block_number h = Returns (payment_state', evs') h'.
Proof.
  induction snapshot as [|k0 rest IH]; intros payment_state evs h Hnd Hin.
  - by eexists _, _, _.
  - apply NoDup_cons in Hnd as [Hk0 Hnd].
    destruct (Hin k0) as [a0 Ha0]; [by left|].
    cbn [subdispatch_to_all_loop]. unfold getitem. rewrite Ha0.
    unfold call_initiator_state_transition, with_transfers. exec.
    destruct (channelidentifiers_to_channels h !! channel_identifier a0)
      as [cs0|] eqn:Hcs0.
    + apply IH; [done|]. intros k Hk.
      assert (k0 ≠ k) as Hne by (intros ->; done).
      destruct (new_state _); cbn.
      * rewrite get_setitem_ne by done. apply Hin. by right.
      * rewrite get_delitem_ne, get_setitem_ne by done. apply Hin. by right.
    + apply IH; [done|]. intros k Hk. apply Hin. by right.
Qed.

(** C9. A broadcast state change (a block, a secret reveal off chain or on
    chain) is not forwarded to an attempt whose channel identifier is not
    in the channel map: the transition returns, the attempt is under its
    key as it was, and state, events and heap are those of the loop that
    never visits its key. *)
Theorem C9_broadcast_skips_unknown_channel payment_state state_change
    block_number h k a :
  PyDict.wf (initiator_transfers payment_state) →
  match state_change with
  | Block _ _ | ReceiveSecretReveal _ _ | ContractReceiveSecretReveal _ => True
  | _ => False
  end →
  PyDict.get (initiator_transfers payment_state) k = Some a →
  channelidentifiers_to_channels h !! channel_identifier a = None →
  ∃ payment_state' evs h',
    state_transition (Some payment_state) state_change block_number h =
      Returns (mkTransitionResult (Some payment_state') evs) h' ∧
    PyDict.get (initiator_transfers payment_state') k = Some a ∧
    subdispatch_to_all_loop
      (filter (λ k', k' ≠ k) (PyDict.keys (initiator_transfers payment_state)))
      payment_state [] state_change block_number h =
    Returns (payment_state', evs) h'.
Proof.
  intros Hwf Hsc Ha Hnone.
  destruct (subdispatch_to_all_loop_returns state_change block_number
              (PyDict.keys (initiator_transfers payment_state))
              payment_state [] h Hwf)
    as (ps' & evs & h' & Hrun).
  { intros k' Hk'. by apply keys_get_Some, list_elem_of_In. }
  destruct (subdispatch_to_all_loop_keeps _ _ _ _ _ _ _ _ _ _ _ Ha Hnone Hrun)
    as [Hkept _].
  exists ps', evs, h'. split; [|split; [done|]].
  - apply state_transition_of_handler; [|by eapply get_Some_nonempty].
    assert (subdispatch_to_all_initiatortransfer (Some payment_state)
              state_change block_number h =
            Returns (mkTransitionResult (Some ps') evs) h') as Hall.
    { unfold subdispatch_to_all_initiatortransfer. run. unfold bind.
      by rewrite Hrun. }
    by destruct state_change.
  - by rewrite <- (subdispatch_to_all_loop_skip _ _ _ _ _ _ _ _ Ha Hnone).
Qed.

(** *** When the transition returns

    With a payment state present whose attempts all have their channel in
    the map, the transition raises in one case only: the retry after an
    accepted refund finds no route. *)
Lemma state_transition_returns payment_state state_change block_number h :
  PyDict.wf (initiator_transfers payment_state) →
  (∀ k a, PyDict.get (initiator_transfers payment_state) k = Some a →
          is_Some (channelidentifiers_to_channels h !! channel_identifier a)) →
  (∀ old channels routes description prng number,
     is_Some (new_state (route_iteration
                (try_new_route (Some old) channels routes description prng
                   number)))) →
  ∃ iteration h',
    state_transition (Some payment_state) state_change block_number h =
    Returns iteration h'.
Proof.
  intros Hwf Hchan Hroute.
  enough (∃ iteration h',
            state_transition_handler (Some payment_state) state_change
              block_number h = Returns iteration h') as (it & h' & Hh).
  { unfold state_transition, bind. rewrite Hh. by eexists _, _. }
  assert (∃ iteration h',
            subdispatch_to_all_initiatortransfer (Some payment_state)
              state_change block_number h = Returns iteration h') as Hall.
  { destruct (subdispatch_to_all_loop_returns state_change block_number
                (PyDict.keys (initiator_transfers payment_state))
                payment_state [] h Hwf) as (ps' & evs & h' & Hrun).
    { intros k' Hk'. by apply keys_get_Some, list_elem_of_In. }
    unfold subdispatch_to_all_initiatortransfer. run. unfold bind.
    rewrite Hrun. by eexists _, _. }
  destruct state_change as [bn rest|td routes|sh rest|routes refund secret|
                            |secret rest|sh rest|rest|rest];
    cbn [state_transition_handler]; try done.
  - by eexists _, _.
  - unfold handle_secretrequest. run.
    destruct (PyDict.get _ sh) as [a|] eqn:Ha; [|by eexists _, _].
    destruct (Hchan _ _ Ha) as [cs Hcs].
    unfold subdispatch_to_initiatortransfer, call_initiator_state_transition.
    exec. rewrite Hcs. by eexists _, _.
  - unfold handle_transferrefundcancelroute. run.
    destruct (PyDict.get _ _) as [a|] eqn:Ha; [|by eexists _, _].
    destruct (Hchan _ _ Ha) as [cs Hcs].
    unfold call_handle_receive_refundtransfercancelroute, maybe_try_new_route,
      cancel_current_route, call_try_new_route, with_transfers.
    exec. rewrite Hcs.
    destruct (negb _ || negb _); [by eexists _, _|].
    destruct (negb _); [by eexists _, _|].
    destruct (can_cancel (Some a)); [|by eexists _, _].
    match goal with
    | |- context [try_new_route ?o ?c ?r ?d ?p ?n] =>
        destruct (Hroute a c r d p n) as [new Hnew]; rewrite Hnew
    end.
    rewrite bool_decide_eq_true_2 by eauto. by eexists _, _.
  - destruct (handle_cancelpayment_loop_spec h
                (PyDict.keys (initiator_transfers payment_state))
                payment_state [] Hwf) as (ps' & mc & me & Hrun & _).
    { intros k Hk. apply list_elem_of_In, keys_get_Some in Hk as [a Ha]. eauto. }
    unfold handle_cancelpayment. run. unfold bind. rewrite Hrun.
    by eexists _, _.
  - unfold handle_lock_expired. run.
    destruct (PyDict.get _ sh) as [a|] eqn:Ha; [|by eexists _, _].
    destruct (Hchan _ _ Ha) as [cs Hcs].
    unfold call_handle_receive_lock_expired. exec. rewrite Hcs.
    by eexists _, _.
  - by eexists _, _.
Qed.

(** With no payment state, every state change of the dispatch table other
    than the init reads an attribute of [None]. *)
Lemma state_transition_absent_state state_change block_number h :
  match state_change with
  | ActionInitInitiator _ _ | Unhandled _ => True
  | _ =>
      state_transition None state_change block_number h = Raises AttributeError
  end.
Proof. by destruct state_change. Qed.
End Properties.

(** ** The properties on the concrete network *)
Section OnScenario.
Import Scenario.

(** C1. The strict channel refuses the refund, which is otherwise valid,
    and answers with an event; the transition returns the payment state
    unchanged and an empty list of events. *)
Theorem C1_channel_events_dropped :
  PyDict.get (initiator_transfers payment) (lock_secrethash (refund_lock refund))
    = Some pending ∧
  refund_lock refund = transfer_lock (transfer pending) ∧
  refund_transfer_matches_received refund (transfer pending) = true ∧
  handle_receive_refundtransfercancelroute strict_channel refund =
    mkRefundOutcome false [EventForeign "EventInvalidReceivedTransferRefund"]
      strict_channel ∧
  state_transition (Some payment)
    (ReceiveTransferRefundCancelRoute [8] refund "n") 5 strict_heap =
  Returns (mkTransitionResult (Some payment) []) strict_heap.
Proof. repeat split; vm_compute; reflexivity. Qed.

(** C2. The transition raises [KeyError] on a secret request for an
    attempt whose channel is not in the channel map, and
    [AssertionError] on a valid refund for a cancellable attempt when
    [try_new_route] finds no route. *)
Theorem C2_state_transition_raises :
  state_transition (Some payment) (ReceiveSecretRequest "#s" nothing) 5 bare_heap =
    Raises KeyError ∧
  route_iteration
    (try_new_route (Some pending) (channelidentifiers_to_channels heap) []
       (mkTransferDescription "net" 1 100 "token" "alice" "carol" "n") 0 5)
    = mkTransitionResult None
        [EventPaymentSentFailed "net" "token" 1 "carol"
           "there is no route available"] ∧
  state_transition (Some payment)
    (ReceiveTransferRefundCancelRoute [] refund "n") 5 heap =
    Raises AssertionError.
Proof. repeat split; vm_compute; reflexivity. Qed.

(** C3. With the channel of an attempt missing from the channel map the
    cancellation raises [KeyError] and returns neither state nor events.  It
    does so for a payment whose one attempt is past the reveal, which a
    cancellation leaves in the mapping as it is and for which no channel
    state is needed; and it does so for a payment whose one attempt has no
    [revealsecret] and is to be removed. *)
Theorem C3_cancelpayment_raises :
  PyDict.get (initiator_transfers revealed_payment) "#s" = Some revealed ∧
  revealsecret revealed = Some "s" ∧
  handle_cancelpayment (Some revealed_payment) bare_heap = Raises KeyError ∧
  state_transition (Some revealed_payment) ActionCancelPayment 5 bare_heap =
    Raises KeyError ∧
  PyDict.get (initiator_transfers payment) "#s" = Some pending ∧
  revealsecret pending = None ∧
  handle_cancelpayment (Some payment) bare_heap = Raises KeyError ∧
  state_transition (Some payment) ActionCancelPayment 5 bare_heap =
    Raises KeyError.
Proof. repeat split; vm_compute; reflexivity. Qed.

Lemma cancelpayment_with_channels_witness :
  ∃ payment_state' (more_channels : list Z) (evs : list Event),
    handle_cancelpayment (Some payment2) both_heap =
    Returns (mkTransitionResult (Some payment_state') evs) both_heap ∧
    PyDict.get (initiator_transfers payment_state') "#s" = None ∧
    PyDict.get (initiator_transfers payment_state') "#t" = Some other ∧
    7 ∈ more_channels ∧
    EventUnlockFailed 1 "#s" "route was canceled" ∈ evs ∧
    EventPaymentSentFailed "net" "token" 1 "carol" "user canceled payment" ∈ evs.
Proof.
  destruct (cancelpayment_with_channels payment2 5 both_heap)
    as (ps' & mc & evs & Hh & _ & _ & _ & Hall).
  - apply (bool_decide_unpack _). vm_compute. exact I.
  - intros k a. cbn. repeat case_decide; intros [= <-]; by eexists.
  - exists ps', mc, evs. split; [exact Hh|].
    pose proof (Hall "#s" pending eq_refl) as (Hs & Hc & Hu & Hp).
    pose proof (Hall "#t" other eq_refl) as Ht.
    repeat split; try assumption. exact (Hp open_channel eq_refl).
Defined.

(** C4. A refund whose lock differs from the lock sent in its amount, for an
    attempt whose channel is missing from the channel map: the handler reads
    the channel before it compares the locks, and the transition raises
    [KeyError] instead of returning the state unchanged and no events. *)
Theorem C4_malformed_refund_raises :
  PyDict.get (initiator_transfers payment)
    (lock_secrethash (refund_lock bad_refund)) = Some pending ∧
  lock_amount (refund_lock bad_refund) ≠
    lock_amount (transfer_lock (transfer pending)) ∧
  handle_transferrefundcancelroute (Some payment)
    (ReceiveTransferRefundCancelRoute [8] bad_refund "n") 5 bare_heap =
    Raises KeyError ∧
  state_transition (Some payment)
    (ReceiveTransferRefundCancelRoute [8] bad_refund "n") 5 bare_heap =
    Raises KeyError ∧
  state_transition (Some payment)
    (ReceiveTransferRefundCancelRoute [8] bad_refund "n") 5 bare_heap ≠
    Returns (mkTransitionResult (Some payment) []) bare_heap.
Proof. repeat split; try (vm_compute; reflexivity); by vm_compute. Qed.

Lemma rejected_refund_is_noop_witness :
  handle_transferrefundcancelroute (Some payment)
    (ReceiveTransferRefundCancelRoute [8] bad_refund "n") 5 heap =
  Returns (mkTransitionResult (Some payment) []) heap ∧
  state_transition (Some payment)
    (ReceiveTransferRefundCancelRoute [8] bad_refund "n") 5 heap =
  Returns (mkTransitionResult (Some payment) []) heap.
Proof.
  destruct (rejected_refund_is_noop payment [8] bad_refund "n" 5 heap)
    as [Hh Ht].
  - right. exists pending. split; [reflexivity|]. split.
    + exists open_channel. reflexivity.
    + right. left. by vm_compute.
  - split; [exact Hh|]. apply Ht. by vm_compute.
Defined.

Lemma C6_witness :
  initiator_transfers payment ≠ [] ∧
  state_transition (Some payment) (ActionInitInitiator description [8]) 5 heap =
  Returns (mkTransitionResult (Some payment) []) heap.
Proof.
  assert (initiator_transfers payment ≠ []) as Hne by (by vm_compute).
  split; [exact Hne|].
  exact (proj2 (C6_second_init_is_noop payment description [8] 5 heap) Hne).
Defined.

(** C7 needs the channel: the message matches the attempt, yet with the
    attempt's channel missing from the map no channel handler runs and the
    transition raises. *)
Lemma C7_counterexample :
  PyDict.get (initiator_transfers payment) "#s" = Some pending ∧
  handle_lock_expired (Some payment) (ReceiveLockExpired "#s" nothing) 60 bare_heap =
    Raises KeyError ∧
  ∀ iteration h,
    state_transition (Some payment) (ReceiveLockExpired "#s" nothing) 60 bare_heap ≠
    Returns iteration h.
Proof. repeat split; try (vm_compute; reflexivity). intros it h. by vm_compute. Qed.

(** At block 60 the lock of the attempt, which expires at 50, is gone from
    the partner's table: the claim-failed event follows the channel's. *)
Lemma C7_witness :
  events
    (match state_transition (Some payment) (ReceiveLockExpired "#s" nothing) 60 heap with
     | Returns iteration _ => iteration
     | Raises _ => mkTransitionResult None []
     end) =
  [EventForeign "SendProcessed"; EventUnlockClaimFailed 1 "#s" "Lock expired"].
Proof.
  destruct (C7_lock_expired payment "#s" nothing 60 heap)
    as [Hmatch _].
  destruct (Hmatch pending open_channel eq_refl eq_refl) as [_ Ht].
  rewrite Ht. reflexivity.
Defined.

Lemma C8_witness :
  ∃ new_description : TransferDescriptionWithSecretState,
    new_description =
      mkTransferDescription "net" 1 100 "token" "alice" "carol" "n" ∧
    route_iteration
      (try_new_route (Some pending) (channelidentifiers_to_channels heap) [8]
         new_description 0 5) =
    mkTransitionResult
      (Some (mkInitiatorTransferState new_description 8
               (mkLockedTransfer 1 (mkHashTimeLockState 100 15 "#n")) None false))
      [EventForeign "SendLockedTransfer"].
Proof.
  destruct (C8_retry_description payment [8] refund "n" 5 heap pending
              open_channel)
    as (td & Hs & Hpn & Hpi & Ham & Htn & Hin & Hta & _);
    try (vm_compute; reflexivity).
  exists td. destruct td; cbn in *; subst. split; reflexivity.
Defined.

(** The first attempt of [payment2] is on channel 7, which the map does not
    hold: the reveal reaches the second attempt only. *)
Lemma C9_witness :
  ∃ (payment_state' : @InitiatorPaymentState ext) evs h',
    state_transition (Some payment2) (ReceiveSecretReveal "t" nothing) 5 second_heap =
      Returns (mkTransitionResult (Some payment_state') evs) h' ∧
    PyDict.get (initiator_transfers payment_state') "#s" = Some pending.
Proof.
  destruct (C9_broadcast_skips_unknown_channel payment2
              (ReceiveSecretReveal "t" nothing) 5 second_heap "#s" pending)
    as (ps' & evs & h' & Ht & Hk & _).
  - apply (bool_decide_unpack _). vm_compute. exact I.
  - exact I.
  - reflexivity.
  - reflexivity.
  - exists ps', evs, h'. split; assumption.
Defined.

Lemma C10_witness :
  initiator_transfers payment ≠ [] ∧
  ∃ iteration h' payment_state',
    state_transition (Some payment) (ReceiveSecretRequest "#s" nothing) 5 heap =
      Returns iteration h' ∧
    new_state iteration = Some payment_state' ∧
    PyDict.keys (initiator_transfers payment_state') = ["#s"].
Proof.
  assert (initiator_transfers payment ≠ []) as Hne by (by vm_compute).
  split; [exact Hne|].
  pose proof (C10_secretrequest_keeps_keys payment "#s" nothing 5
                heap) as Hc.
  destruct (handle_secretrequest (Some payment) (ReceiveSecretRequest "#s" nothing)
              5 heap) as [it h1|e] eqn:Hh.
  - destruct Hc as [(ps' & Hnew & Hkeys & _) Ht].
    destruct (Ht Hne) as [h' Ht']. exists it, h', ps'.
    split; [exact Ht'|]. split; [exact Hnew|]. exact Hkeys.
  - exfalso. destruct Hc as [_ (a & Ha & Hnone)].
    injection Ha as <-. discriminate Hnone.
Defined.

(** The contrast of C10: the reveal is broadcast, the sub-machine of the
    second attempt returns no state, and the attempt is deleted; the same
    sub-machine answer to a secret request would have left it in place. *)
Example broadcast_deletes_finished_attempt :
  match state_transition (Some payment2) (ReceiveSecretReveal "t" nothing) 5
          second_heap with
  | Returns iteration _ =>
      option_map (λ s, PyDict.keys (initiator_transfers s)) (new_state iteration)
      = Some ["#s"] ∧
      events iteration = [EventForeign "EventPaymentSentSuccess"]
  | Raises _ => False
  end.
Proof. vm_compute. split; reflexivity. Qed.

(** Scenario S5 of the specification: a cancel in mid flight retires the
    payment. *)
Example user_cancel_mid_flight :
  state_transition (Some payment) ActionCancelPayment 5 heap =
  Returns
    (mkTransitionResult None
       [EventUnlockFailed 1 "#s" "route was canceled";
        EventPaymentSentFailed "net" "token" 1 "carol" "user canceled payment"])
    heap.
Proof. vm_compute. reflexivity. Qed.

(** Scenario S2: no route, no payment. *)
Example init_without_routes :
  state_transition None (ActionInitInitiator description []) 5 heap =
  Returns
    (mkTransitionResult None
       [EventPaymentSentFailed "net" "token" 1 "carol"
          "there is no route available"])
    heap.
Proof. vm_compute. reflexivity. Qed.
End OnScenario.


(** ** More about dictionaries *)
Section PyDictMore.
Context {K V : Type} `{EqDecision K}.
Implicit Types (d : PyDict.dict K V) (k : K) (v : V).

Lemma get_app_absent d1 d2 k :
  k ∉ PyDict.keys d1 → PyDict.get (d1 ++ d2) k = PyDict.get d2 k.
Proof.
  induction d1 as [|[k0 v0] d1 IH]; cbn; [done|]. intros Hk.
  apply not_elem_of_cons in Hk as [Hne Hk]. rewrite decide_False by done. auto.
Qed.

Lemma delitem_absent d k : k ∉ PyDict.keys d → PyDict.delitem d k = d.
Proof.
  induction d as [|[k0 v0] d IH]; cbn; [done|]. intros Hk.
  apply not_elem_of_cons in Hk as [Hne Hk]. rewrite decide_False by done.
  f_equal. auto.
Qed.

Lemma delitem_app d1 d2 k :
  PyDict.delitem (d1 ++ d2) k = PyDict.delitem d1 k ++ PyDict.delitem d2 k.
Proof.
  induction d1 as [|[k0 v0] d1 IH]; cbn; [done|].
  destruct (decide (k0 = k)); cbn; by rewrite IH.
Qed.

(** Deleting takes entries away and changes none. *)
Lemma get_delitem_Some d k k' v :
  PyDict.get (PyDict.delitem d k) k' = Some v → PyDict.get d k' = Some v.
Proof.
  destruct (decide (k = k')) as [->|Hne].
  - by rewrite get_delitem_eq.
  - by rewrite get_delitem_ne.
Qed.

Lemma keys_delitem_sublist d k :
  sublist (PyDict.keys (PyDict.delitem d k)) (PyDict.keys d).
Proof.
  induction d as [|[k0 v0] d IH]; cbn; [done|].
  destruct (decide (k0 = k)); cbn.
  - by apply sublist_cons.
  - by apply sublist_skip.
Qed.

Lemma elem_of_get d k v :
  PyDict.wf d → (k, v) ∈ d → PyDict.get d k = Some v.
Proof.
  unfold PyDict.wf. induction d as [|[k0 v0] d IH]; cbn.
  - intros _ Hin. by apply elem_of_nil in Hin.
  - intros Hnd Hin. apply NoDup_cons in Hnd as [Hk0 Hnd].
    apply elem_of_cons in Hin as [[= -> ->]|Hin].
    + by rewrite decide_True.
    + rewrite decide_False; [by apply IH|].
      intros ->. apply Hk0.
      by apply list_elem_of_In, (in_map fst d (k, v)), list_elem_of_In.
Qed.

Lemma get_elem_of d k v : PyDict.get d k = Some v → (k, v) ∈ d.
Proof.
  induction d as [|[k0 v0] d IH]; cbn; [done|].
  destruct (decide (k0 = k)) as [->|Hne].
  - intros [= ->]. by left.
  - intros Hg. right. auto.
Qed.
End PyDictMore.

(** ** Further properties of the manager *)
Section Coverage.
Context `{Ext : External} {Chan : Channel} {Init : Initiator}.
Implicit Types (payment_state : InitiatorPaymentState) (h : Heap)
  (state_change : StateChange) (block_number : Z).

Ltac exec :=
  cbv beta iota zeta delta
    [bind ret raise deref assert getitem channel_getitem channel_get
     channel_store prng_store channels_store get_heap] in *;
  cbn [new_state events fst snd channelidentifiers_to_channels
       pseudo_random_generator initiator_transfers cancelled_channels] in *.

(** The first init of a payment.  The routes and the description go to
    [try_new_route] with no old attempt; its events are returned as they
    are.  With a route the payment state is created: one attempt, under the
    secrethash of the lock of its transfer, and no cancelled channel; without
    one the state stays absent. *)
Theorem init_creates_payment description routes block_number h :
  state_transition None (ActionInitInitiator description routes) block_number h =
  let route :=
    try_new_route None (channelidentifiers_to_channels h) routes description
      (pseudo_random_generator h) block_number in
  Returns
    (mkTransitionResult
       (match new_state (route_iteration route) with
        | Some initiator_state =>
            Some (mkInitiatorPaymentState
                    [(lock_secrethash (transfer_lock (transfer initiator_state)),
                      initiator_state)] [])
        | None => None
        end)
       (events (route_iteration route)))
    (mkHeap (route_channels route) (route_prng route)).
Proof.
  unfold state_transition. cbn [state_transition_handler].
  unfold handle_init, call_try_new_route. cbn [sc_routes sc_transfer_description].
  exec. unfold clear_if_finalized.
  by destruct (new_state (route_iteration _)).
Qed.

(** With no payment state, a state change of the dispatch table other than
    the init reads [initiator_transfers] of [None] and raises
    [AttributeError]; a state change outside the table returns the absent
    state, no events and the heap as it was. *)
Theorem absent_state_raises_or_ignores state_change block_number h :
  match state_change with
  | ActionInitInitiator _ _ => True
  | Unhandled _ =>
      state_transition None state_change block_number h =
      Returns (mkTransitionResult None []) h
  | _ =>
      state_transition None state_change block_number h = Raises AttributeError
  end.
Proof. by destruct state_change. Qed.

(** A secret request for an attempt whose channel is known goes to the
    sub-machine once, with that channel state and the generator as they are.
    The events are the sub-machine's; the attempt under the secrethash is the
    object as the sub-machine left it, and it stays there whatever state the
    sub-machine returned; every other attempt, the order of the keys and the
    cancelled channels are untouched. *)
Theorem secretrequest_touches_one_attempt payment_state secrethash rest
    block_number h initiator_state channel_state :
  PyDict.get (initiator_transfers payment_state) secrethash =
    Some initiator_state →
  channelidentifiers_to_channels h !! channel_identifier initiator_state =
    Some channel_state →
  let sub :=
    initiator_state_transition initiator_state
      (ReceiveSecretRequest secrethash rest) channel_state
      (pseudo_random_generator h) block_number in
  ∃ payment_state',
    state_transition (Some payment_state) (ReceiveSecretRequest secrethash rest)
      block_number h =
    Returns (mkTransitionResult (Some payment_state') (events (sub_iteration sub)))
      (mkHeap (<[channel_identifier initiator_state := sub_channel_state sub]>
                 (channelidentifiers_to_channels h)) (sub_prng sub)) ∧
    PyDict.get (initiator_transfers payment_state') secrethash =
      Some (sub_initiator_state sub) ∧
    (∀ k, k ≠ secrethash →
          PyDict.get (initiator_transfers payment_state') k =
          PyDict.get (initiator_transfers payment_state) k) ∧
    PyDict.keys (initiator_transfers payment_state') =
      PyDict.keys (initiator_transfers payment_state) ∧
    cancelled_channels payment_state' = cancelled_channels payment_state.
Proof.
  intros Ha Hcs sub.
  exists (mkInitiatorPaymentState
            (PyDict.setitem (initiator_transfers payment_state) secrethash
               (sub_initiator_state sub))
            (cancelled_channels payment_state)).
  assert (PyDict.keys (PyDict.setitem (initiator_transfers payment_state)
                         secrethash (sub_initiator_state sub)) =
          PyDict.keys (initiator_transfers payment_state)) as Hkeys.
  { apply keys_setitem_present. by rewrite Ha. }
  split; [|split; [|split; [|split]]]; cbn; try done.
  - apply state_transition_of_handler.
    + cbn [state_transition_handler]. unfold handle_secretrequest.
      cbn [sc_secrethash]. exec. rewrite Ha.
      unfold subdispatch_to_initiatortransfer, call_initiator_state_transition.
      exec. by rewrite Hcs.
    + cbn. intros Hnil. rewrite Hnil in Hkeys.
      by destruct (initiator_transfers payment_state).
  - apply get_setitem_eq.
  - intros k Hk. by apply get_setitem_ne.
Qed.

(** A payment with one attempt, on a known channel, under a broadcast state
    change: the sub-machine is asked once; if it returns no state the
    attempt is deleted and the payment is retired with the sub-machine's
    events, otherwise the payment keeps the attempt as the sub-machine left
    it. *)
Theorem broadcast_to_single_attempt k initiator_state cancelled state_change
    block_number h channel_state :
  match state_change with
  | Block _ _ | ReceiveSecretReveal _ _ | ContractReceiveSecretReveal _ => True
  | _ => False
  end →
  channelidentifiers_to_channels h !! channel_identifier initiator_state =
    Some channel_state →
  let sub :=
    initiator_state_transition initiator_state state_change channel_state
      (pseudo_random_generator h) block_number in
  state_transition
    (Some (mkInitiatorPaymentState [(k, initiator_state)] cancelled))
    state_change block_number h =
  Returns
    (mkTransitionResult
       (match new_state (sub_iteration sub) with
        | Some _ =>
            Some (mkInitiatorPaymentState [(k, sub_initiator_state sub)] cancelled)
        | None => None
        end)
       (events (sub_iteration sub)))
    (mkHeap (<[channel_identifier initiator_state := sub_channel_state sub]>
               (channelidentifiers_to_channels h)) (sub_prng sub)).
Proof.
  intros Hsc Hcs sub.
  assert (subdispatch_to_all_initiatortransfer
            (Some (mkInitiatorPaymentState [(k, initiator_state)] cancelled))
            state_change block_number h =
          Returns
            (mkTransitionResult
               (Some (match new_state (sub_iteration sub) with
                      | Some _ =>
                          mkInitiatorPaymentState [(k, sub_initiator_state sub)]
                            cancelled
                      | None => mkInitiatorPaymentState [] cancelled
                      end))
               (events (sub_iteration sub)))
            (mkHeap (<[channel_identifier initiator_state := sub_channel_state sub]>
                       (channelidentifiers_to_channels h)) (sub_prng sub))) as Hall.
  { unfold subdispatch_to_all_initiatortransfer. cbn.
    unfold call_initiator_state_transition, with_transfers. exec.
    cbn [PyDict.get]. destruct (decide (k = k)); [|done]. exec.
    rewrite Hcs. fold sub.
    destruct (new_state (sub_iteration sub)); cbn; [done|].
    by destruct (decide (k = k)). }
  unfold state_transition, bind.
  replace (state_transition_handler _ state_change block_number h)
    with (subdispatch_to_all_initiatortransfer
            (Some (mkInitiatorPaymentState [(k, initiator_state)] cancelled))
            state_change block_number h) by (by destruct state_change).
  rewrite Hall. unfold ret, clear_if_finalized. cbn.
  by destruct (new_state (sub_iteration sub)).
Qed.

(** The loop of the broadcast over attempts none of which has its channel in
    the map does nothing. *)
Lemma subdispatch_to_all_loop_idle state_change block_number payment_state h
    snapshot :
  ∀ evs,
  (∀ k, k ∈ snapshot →
        ∃ a, PyDict.get (initiator_transfers payment_state) k = Some a ∧
             channelidentifiers_to_channels h !! channel_identifier a = None) →
  subdispatch_to_all_loop snapshot payment_state evs state_change block_number h =
  Returns (payment_state, evs) h.
Proof.
  induction snapshot as [|k0 rest IH]; intros evs Hall; [done|].
  destruct (Hall k0) as (a0 & Ha0 & Hnone); [by left|].
  cbn [subdispatch_to_all_loop]. unfold getitem. rewrite Ha0. exec.
  rewrite Hnone. apply IH. intros k Hk. apply Hall. by right.
Qed.

(** A broadcast state change for a payment none of whose channels is in the
    channel map is a no-op: same state, no events, same heap. *)
Theorem broadcast_without_channels_is_noop payment_state state_change
    block_number h :
  match state_change with
  | Block _ _ | ReceiveSecretReveal _ _ | ContractReceiveSecretReveal _ => True
  | _ => False
  end →
  initiator_transfers payment_state ≠ [] →
  (∀ k a, PyDict.get (initiator_transfers payment_state) k = Some a →
          channelidentifiers_to_channels h !! channel_identifier a = None) →
  state_transition (Some payment_state) state_change block_number h =
  Returns (mkTransitionResult (Some payment_state) []) h.
Proof.
  intros Hsc Hne Hall. apply state_transition_of_handler; [|done].
  assert (subdispatch_to_all_initiatortransfer (Some payment_state)
            state_change block_number h =
          Returns (mkTransitionResult (Some payment_state) []) h) as Hrun.
  { unfold subdispatch_to_all_initiatortransfer. cbn [deref]. unfold bind, ret.
    rewrite subdispatch_to_all_loop_idle; [done|].
    intros k Hk. apply list_elem_of_In, keys_get_Some in Hk as [a Ha]. eauto. }
  by destruct state_change.
Qed.

(** What the loop of the broadcast can change: it deletes attempts and
    rewrites attempts in place, and that is all. *)
Lemma subdispatch_to_all_loop_frame state_change block_number snapshot :
  ∀ payment_state evs h payment_state' evs' h',
  subdispatch_to_all_loop snapshot payment_state evs state_change block_number h =
    Returns (payment_state', evs') h' →
  sublist (PyDict.keys (initiator_transfers payment_state'))
    (PyDict.keys (initiator_transfers payment_state)) ∧
  cancelled_channels payment_state' = cancelled_channels payment_state ∧
  dom (channelidentifiers_to_channels h') = dom (channelidentifiers_to_channels h) ∧
  ∃ more, evs' = evs ++ more.
Proof.
  induction snapshot as [|k0 rest IH]; intros ps evs h ps' evs' h'.
  - cbn. intros [= <- <- <-]. repeat split; [done|]. exists []. by rewrite app_nil_r.
  - cbn [subdispatch_to_all_loop]. unfold getitem.
    destruct (PyDict.get (initiator_transfers ps) k0) as [a0|] eqn:Ha0; [|done].
    unfold call_initiator_state_transition, with_transfers. exec.
    destruct (channelidentifiers_to_channels h !! channel_identifier a0)
      as [cs0|] eqn:Hcs0; [|by apply IH].
    intros Hrun. apply IH in Hrun as (Hsub & Hc & Hdom & more & ->).
    cbn in Hdom. rewrite dom_insert_lookup_L in Hdom by eauto.
    assert (PyDict.keys
              (PyDict.setitem (initiator_transfers ps) k0
                 (sub_initiator_state
                    (initiator_state_transition a0 state_change cs0
                       (pseudo_random_generator h) block_number))) =
            PyDict.keys (initiator_transfers ps)) as Hkeys.
    { apply keys_setitem_present. by rewrite Ha0. }
    split; [|split; [|split; [done|]]].
    + etrans; [exact Hsub|]. destruct (new_state _); cbn [initiator_transfers].
      * by rewrite Hkeys.
      * rewrite <- Hkeys. apply keys_delitem_sublist.
    + rewrite Hc. by destruct (new_state _).
    + eexists. by rewrite <- app_assoc.
Qed.

(** A broadcast state change never adds an attempt and never reorders the
    attempts: the keys it returns are the old keys with some left out.  It
    leaves the cancelled channels as they are, and the channel map keeps its
    identifiers. *)
Theorem broadcast_only_removes_attempts payment_state state_change block_number
    h iteration h' :
  match state_change with
  | Block _ _ | ReceiveSecretReveal _ _ | ContractReceiveSecretReveal _ => True
  | _ => False
  end →
  state_transition (Some payment_state) state_change block_number h =
    Returns iteration h' →
  dom (channelidentifiers_to_channels h') = dom (channelidentifiers_to_channels h) ∧
  ∀ payment_state',
    new_state iteration = Some payment_state' →
    sublist (PyDict.keys (initiator_transfers payment_state'))
      (PyDict.keys (initiator_transfers payment_state)) ∧
    cancelled_channels payment_state' = cancelled_channels payment_state.
Proof.
  intros Hsc. unfold state_transition, bind.
  replace (state_transition_handler _ state_change block_number h)
    with (subdispatch_to_all_initiatortransfer (Some payment_state)
            state_change block_number h) by (by destruct state_change).
  unfold subdispatch_to_all_initiatortransfer. cbn [deref]. unfold bind, ret.
  destruct (subdispatch_to_all_loop _ _ _ _ _ _) as [[ps1 evs1] h1|e] eqn:Hrun;
    [|done].
  apply subdispatch_to_all_loop_frame in Hrun as (Hsub & Hc & Hdom & _).
  intros [= <- <-]. split; [done|]. intros ps'.
  unfold clear_if_finalized. cbn.
  destruct (initiator_transfers ps1) eqn:Hd; cbn; [done|].
  intros [= <-]. by rewrite Hd.
Qed.

(** *** The invariant of the keys

    Every attempt sits under the secrethash of the lock of its transfer. *)

Lemma subdispatch_to_all_loop_keys state_change block_number snapshot :
  (∀ a cs prng number,
     lock_secrethash (transfer_lock (transfer (sub_initiator_state
       (initiator_state_transition a state_change cs prng number)))) =
     lock_secrethash (transfer_lock (transfer a))) →
  ∀ payment_state evs h payment_state' evs' h',
  (∀ k a, PyDict.get (initiator_transfers payment_state) k = Some a →
          lock_secrethash (transfer_lock (transfer a)) = k) →
  subdispatch_to_all_loop snapshot payment_state evs state_change block_number h =
    Returns (payment_state', evs') h' →
  ∀ k a, PyDict.get (initiator_transfers payment_state') k = Some a →
         lock_secrethash (transfer_lock (transfer a)) = k.
Proof.
  intros Hsub.
  induction snapshot as [|k0 rest IH]; intros ps evs h ps' evs' h' Hinv.
  - cbn. by intros [= <- <- <-].
  - cbn [subdispatch_to_all_loop]. unfold getitem.
    destruct (PyDict.get (initiator_transfers ps) k0) as [a0|] eqn:Ha0; [|done].
    unfold call_initiator_state_transition, with_transfers. exec.
    destruct (channelidentifiers_to_channels h !! channel_identifier a0)
      as [cs0|] eqn:Hcs0; [|by apply IH].
    apply IH. intros k a.
    assert (∀ k a,
              PyDict.get (PyDict.setitem (initiator_transfers ps) k0
                (sub_initiator_state
                   (initiator_state_transition a0 state_change cs0
                      (pseudo_random_generator h) block_number))) k = Some a →
              lock_secrethash (transfer_lock (transfer a)) = k) as Hset.
    { intros k1 a1. destruct (decide (k0 = k1)) as [<-|Hne].
      - rewrite get_setitem_eq. intros [= <-]. rewrite Hsub. by apply Hinv.
      - rewrite get_setitem_ne by done. apply Hinv. }
    destruct (new_state _); cbn; [apply Hset|].
    intros Hg. apply get_delitem_Some in Hg. by apply Hset.
Qed.

(** The loop of the cancellation only deletes attempts. *)
Lemma handle_cancelpayment_loop_deletes snapshot :
  ∀ payment_state evs h payment_state' evs' h',
  handle_cancelpayment_loop snapshot payment_state evs h =
    Returns (payment_state', evs') h' →
  ∀ k a, PyDict.get (initiator_transfers payment_state') k = Some a →
         PyDict.get (initiator_transfers payment_state) k = Some a.
Proof.
  induction snapshot as [|k0 rest IH]; intros ps evs h ps' evs' h'.
  - cbn. by intros [= <- <- <-].
  - cbn [handle_cancelpayment_loop]. unfold getitem.
    destruct (PyDict.get (initiator_transfers ps) k0) as [a0|] eqn:Ha0; [|done].
    unfold cancel_current_route, with_transfers. exec.
    destruct (channelidentifiers_to_channels h !! channel_identifier a0)
      as [cs0|] eqn:Hcs0; [|done].
    destruct (can_cancel (Some a0)); [|by apply IH].
    intros Hrun k a Hg. eapply IH in Hrun; [|exact Hg]. cbn in Hrun.
    by apply get_delitem_Some in Hrun.
Qed.

Lemma clear_if_finalized_Some (iteration : TransitionResult InitiatorPaymentState)
    payment_state :
  new_state (clear_if_finalized iteration) = Some payment_state →
  new_state iteration = Some payment_state.
Proof.
  unfold clear_if_finalized. destruct (new_state iteration) as [st|] eqn:Hst.
  - destruct (length (initiator_transfers st) =? 0)%nat; cbn; [done|].
    by rewrite Hst.
  - by rewrite Hst.
Qed.

(** If the sub-machine leaves the secrethash of the lock of an attempt it is
    handed as it is, the transition keeps the invariant of the mapping:
    every attempt it returns sits under the secrethash of the lock of its
    transfer, whether it was there before, was rewritten in place, or was
    added by an init or by the retry after a refund. *)
Theorem keys_follow_locks (before : option InitiatorPaymentState) state_change
    block_number h iteration h' :
  (∀ a sc cs prng number,
     lock_secrethash (transfer_lock (transfer (sub_initiator_state
       (initiator_state_transition a sc cs prng number)))) =
     lock_secrethash (transfer_lock (transfer a))) →
  (∀ payment_state k a,
     before = Some payment_state →
     PyDict.get (initiator_transfers payment_state) k = Some a →
     lock_secrethash (transfer_lock (transfer a)) = k) →
  state_transition before state_change block_number h = Returns iteration h' →
  ∀ payment_state' k a,
    new_state iteration = Some payment_state' →
    PyDict.get (initiator_transfers payment_state') k = Some a →
    lock_secrethash (transfer_lock (transfer a)) = k.
Proof.
  intros Hsub Hinv. unfold state_transition, bind.
  destruct (state_transition_handler _ _ _ _) as [it0 h0|e] eqn:Hh; [|done].
  cbn. intros [= <- <-] ps' k a Hnew. apply clear_if_finalized_Some in Hnew.
  revert k a.
  assert (∀ payment_state evs h1,
            before = Some payment_state →
            subdispatch_to_all_initiatortransfer before state_change
              block_number h = Returns (mkTransitionResult (Some ps') evs) h1 →
            ∀ k a, PyDict.get (initiator_transfers ps') k = Some a →
                   lock_secrethash (transfer_lock (transfer a)) = k) as Hall.
  { intros ps evs h1 -> Hrun. unfold subdispatch_to_all_initiatortransfer in Hrun.
    cbn [deref] in Hrun. unfold bind, ret in Hrun.
    destruct (subdispatch_to_all_loop _ _ _ _ _ _) as [[ps1 evs1] h2|] eqn:Hloop;
      [|done].
    injection Hrun as <- <- <-.
    eapply subdispatch_to_all_loop_keys; [intros; apply Hsub| |exact Hloop].
    intros k a. by apply Hinv. }
  destruct before as [ps|].
  - specialize (Hinv ps).
    destruct state_change as [bn rest|td routes|sh rest|routes refund secret|
                              |secret rest|sh rest|rest|rest];
      cbn [state_transition_handler] in Hh.
    + destruct it0 as [st evs]. cbn in Hnew. subst st. eapply Hall; eauto.
    + injection Hh as <- <-. injection Hnew as <-. intros k a. by apply Hinv.
    + unfold handle_secretrequest, subdispatch_to_initiatortransfer,
        call_initiator_state_transition, with_transfers in Hh.
      cbn [sc_secrethash] in Hh. exec.
      destruct (PyDict.get (initiator_transfers ps) sh) as [a0|] eqn:Ha0.
      * destruct (channelidentifiers_to_channels h !! channel_identifier a0);
          [|done].
        injection Hh as <- <-. injection Hnew as <-. cbn. intros k a.
        destruct (decide (sh = k)) as [<-|Hne].
        -- rewrite get_setitem_eq. intros [= <-]. rewrite Hsub. by apply Hinv.
        -- rewrite get_setitem_ne by done. by apply Hinv.
      * injection Hh as <- <-. injection Hnew as <-. intros k a. by apply Hinv.
    + unfold handle_transferrefundcancelroute,
        call_handle_receive_refundtransfercancelroute, maybe_try_new_route,
        cancel_current_route, call_try_new_route, with_transfers in Hh.
      cbn [sc_refund_transfer sc_secret sc_routes] in Hh. exec.
      repeat case_match; simplify_eq/=; try (intros k1 a1; by apply Hinv).
      intros k1 a1. cbn.
      match goal with
      | |- PyDict.get (PyDict.setitem _ ?k0 _) _ = _ → _ =>
          destruct (decide (k0 = k1)) as [<-|Hne]
      end.
      * rewrite get_setitem_eq. by intros [= <-].
      * rewrite get_setitem_ne by done. by apply Hinv.
    + unfold handle_cancelpayment in Hh. cbn [deref] in Hh.
      unfold bind, ret in Hh.
      destruct (handle_cancelpayment_loop _ _ _ _) as [[ps1 evs1] h2|] eqn:Hloop;
        [|done].
      injection Hh as <- <-. injection Hnew as <-. intros k a Hg.
      apply (Hinv k a eq_refl).
      by eapply handle_cancelpayment_loop_deletes.
    + destruct it0 as [st evs]. cbn in Hnew. subst st. eapply Hall; eauto.
    + unfold handle_lock_expired, call_handle_receive_lock_expired in Hh.
      cbn [sc_secrethash] in Hh. exec.
      repeat case_match; simplify_eq/=; intros k1 a1; by apply Hinv.
    + destruct it0 as [st evs]. cbn in Hnew. subst st. eapply Hall; eauto.
    + injection Hh as <- <-. injection Hnew as <-. intros k a. by apply Hinv.
  - destruct state_change as [bn rest|td routes|sh rest|routes refund secret|
                              |secret rest|sh rest|rest|rest];
      cbn [state_transition_handler] in Hh; try done.
    + unfold handle_init, call_try_new_route in Hh.
      cbn [sc_routes sc_transfer_description] in Hh. exec.
      destruct (new_state (route_iteration _)) as [new|]; injection Hh as <- <-;
        [|done].
      injection Hnew as <-. cbn. intros k a. case_decide; [|done].
      by intros [= <-].
    + by injection Hh as <- <-.
Qed.

(** *** The cancellation, entry by entry *)

Lemma keys_filter_sublist {V} (f : string * V → bool) (d : PyDict.dict string V) :
  sublist (PyDict.keys (List.filter f d)) (PyDict.keys d).
Proof.
  induction d as [|e d IH]; cbn; [done|].
  destruct (f e); cbn; [by apply sublist_skip|by apply sublist_cons].
Qed.

Lemma filter_filter_same {A} (f : A → bool) (l : list A) :
  List.filter f (List.filter f l) = List.filter f l.
Proof.
  induction l as [|x l IH]; cbn; [done|].
  destruct (f x) eqn:Hx; cbn; [|done]. by rewrite Hx, IH.
Qed.

Lemma filter_filter_negb {A} (f : A → bool) (l : list A) :
  List.filter f (List.filter (λ x, negb (f x)) l) = [].
Proof.
  induction l as [|x l IH]; cbn; [done|].
  destruct (f x) eqn:Hx; cbn; [done|]. by rewrite Hx.
Qed.

(** The loop over the entries [rest] still to visit, with the entries
    [kept] already visited and left in place. *)
Lemma handle_cancelpayment_loop_exact h rest :
  ∀ kept cancelled evs,
  NoDup (PyDict.keys (kept ++ rest)) →
  (∀ entry, entry ∈ rest →
     is_Some (channelidentifiers_to_channels h !! channel_identifier entry.2)) →
  handle_cancelpayment_loop (PyDict.keys rest)
    (mkInitiatorPaymentState (kept ++ rest) cancelled) evs h =
  Returns
    (mkInitiatorPaymentState
       (kept ++ List.filter (λ entry, negb (cancellable entry)) rest)
       (cancelled ++ (map (λ entry, channel_identifier entry.2)
                        (List.filter cancellable rest))),
     evs ++ concat (map (cancelpayment_events_in (channelidentifiers_to_channels h))
                      (List.filter cancellable rest)))
    h.
Proof.
  induction rest as [|[k0 a0] rest IH]; intros kept cancelled evs Hnd Hchan.
  - cbn. by rewrite !app_nil_r.
  - assert ((k0 ∉ PyDict.keys kept) ∧ (k0 ∉ PyDict.keys rest)) as [Hk1 Hk2].
    { unfold PyDict.keys in *. rewrite map_app in Hnd. cbn in Hnd.
      apply NoDup_app in Hnd as (_ & Hdis & Hnd).
      apply NoDup_cons in Hnd as [? _]. split; [|assumption].
      intros Hin. apply (Hdis _ Hin). by left. }
    destruct (Hchan (k0, a0)) as [cs0 Hcs0]; [by left|]. cbn in Hcs0.
    cbn [PyDict.keys map fst handle_cancelpayment_loop initiator_transfers].
    unfold getitem. rewrite get_app_absent by done. cbn [PyDict.get].
    rewrite decide_True by done.
    unfold cancel_current_route, with_transfers. exec. rewrite Hcs0.
    cbn [List.filter]. change (cancellable (k0, a0)) with (can_cancel (Some a0)).
    destruct (can_cancel (Some a0)) eqn:Hcan;
      cbn [negb initiator_transfers cancelled_channels].
    + rewrite delitem_app. cbn [PyDict.delitem]. rewrite decide_True by done.
      rewrite !delitem_absent by done.
      specialize (IH kept (cancelled ++ [channel_identifier a0])
                    (evs ++ events_for_cancel_current_route
                              (transfer_description a0) ++
                            [EventPaymentSentFailed
                               (chan_payment_network_identifier cs0)
                               (chan_token_network_identifier cs0)
                               (td_payment_identifier (transfer_description a0))
                               (td_target (transfer_description a0))
                               "user canceled payment"])).
      unfold PyDict.keys in IH. cbn [map fst] in IH. rewrite IH.
      * cbn [map concat snd]. unfold cancelpayment_events_in at 2. cbn [snd].
        rewrite Hcs0. unfold cancelpayment_events.
        by rewrite <- !app_assoc.
      * unfold PyDict.keys in *. rewrite map_app in *. cbn in Hnd.
        apply NoDup_app in Hnd as (Hn1 & Hdis & Hn2).
        apply NoDup_cons in Hn2 as [_ Hn2].
        apply NoDup_app. split; [done|]. split; [|done].
        intros x Hx Hx'. apply (Hdis x Hx). by right.
      * intros entry Hin. apply Hchan. by right.
    + specialize (IH (kept ++ [(k0, a0)]) cancelled evs).
      rewrite <- !app_assoc in IH. cbn [app] in IH. apply IH.
      * done.
      * intros entry Hin. apply Hchan. by right.
Qed.

(** Cancelling a payment whose attempts all have their channel in the map,
    in full.  The attempts whose [revealsecret] is present stay, in their
    order, and no other does.  The channels of the attempts whose
    [revealsecret] is absent are appended to [cancelled_channels] in the
    order of the mapping.  The events are, for each of these attempts in that
    order, an [EventUnlockFailed] with its payment identifier, the
    secrethash of its description and the reason "route was canceled",
    followed by an [EventPaymentSentFailed] with the two network identifiers
    of its channel, its payment identifier, its target and the reason "user
    canceled payment"; and nothing else. *)
Theorem cancelpayment_in_full payment_state h :
  PyDict.wf (initiator_transfers payment_state) →
  (∀ k a, PyDict.get (initiator_transfers payment_state) k = Some a →
          is_Some (channelidentifiers_to_channels h !! channel_identifier a)) →
  let past_reveal (entry : string * InitiatorTransferState) : bool :=
    match revealsecret entry.2 with Some _ => true | None => false end in
  let before_reveal (entry : string * InitiatorTransferState) : bool :=
    match revealsecret entry.2 with Some _ => false | None => true end in
  let emitted (entry : string * InitiatorTransferState) : list Event :=
    match channelidentifiers_to_channels h !! channel_identifier entry.2 with
    | Some channel_state =>
        [EventUnlockFailed
           (td_payment_identifier (transfer_description entry.2))
           (sha3 (td_secret (transfer_description entry.2)))
           "route was canceled";
         EventPaymentSentFailed
           (chan_payment_network_identifier channel_state)
           (chan_token_network_identifier channel_state)
           (td_payment_identifier (transfer_description entry.2))
           (td_target (transfer_description entry.2))
           "user canceled payment"]
    | None => []
    end in
  handle_cancelpayment (Some payment_state) h =
  Returns
    (mkTransitionResult
       (Some (mkInitiatorPaymentState
                (List.filter past_reveal (initiator_transfers payment_state))
                (cancelled_channels payment_state ++
                 map (λ entry, channel_identifier entry.2)
                   (List.filter before_reveal
                      (initiator_transfers payment_state)))))
       (concat (map emitted
                  (List.filter before_reveal
                     (initiator_transfers payment_state)))))
    h.
Proof.
  intros Hwf Hchan past_reveal before_reveal emitted.
  unfold handle_cancelpayment. cbn [deref]. unfold bind at 1.
  unfold ret at 1. unfold bind.
  destruct payment_state as [d cancelled]. cbn [initiator_transfers] in *.
  pose proof (handle_cancelpayment_loop_exact h d [] cancelled []) as Hrun.
  cbn [app] in Hrun. rewrite Hrun; [|done|].
  - cbn [initiator_transfers cancelled_channels app].
    assert (∀ entry : string * InitiatorTransferState,
              cancellable entry = before_reveal entry) as Hbefore.
    { intros [k a]. unfold cancellable, can_cancel, before_reveal. cbn.
      by destruct (revealsecret a). }
    assert (∀ entry : string * InitiatorTransferState,
              negb (cancellable entry) = past_reveal entry) as Hpast.
    { intros [k a]. unfold cancellable, can_cancel, past_reveal. cbn.
      by destruct (revealsecret a). }
    assert (∀ entry : string * InitiatorTransferState,
              cancelpayment_events_in (channelidentifiers_to_channels h) entry =
              emitted entry) as Hemitted.
    { intros [k a]. unfold cancelpayment_events_in, cancelpayment_events,
        events_for_cancel_current_route, td_secrethash, emitted. cbn.
      by destruct (_ !! _). }
    rewrite (filter_ext _ _ Hbefore), (filter_ext _ _ Hpast).
    by rewrite (map_ext _ _ Hemitted).
  - intros [k a] Hin. apply (Hchan k a). by apply elem_of_get.
Qed.

(** A second cancellation finds nothing left to cancel: run on the state the
    first one returned, the handler returns that state and no events. *)
Theorem cancelpayment_twice payment_state h :
  PyDict.wf (initiator_transfers payment_state) →
  (∀ k a, PyDict.get (initiator_transfers payment_state) k = Some a →
          is_Some (channelidentifiers_to_channels h !! channel_identifier a)) →
  ∃ payment_state' evs,
    handle_cancelpayment (Some payment_state) h =
      Returns (mkTransitionResult (Some payment_state') evs) h ∧
    handle_cancelpayment (Some payment_state') h =
      Returns (mkTransitionResult (Some payment_state') []) h.
Proof.
  intros Hwf Hchan. destruct payment_state as [d cancelled].
  cbn [initiator_transfers] in *.
  assert (∀ entry, entry ∈ d →
            is_Some (channelidentifiers_to_channels h !!
                       channel_identifier entry.2)) as Hall.
  { intros [k a] Hin. apply (Hchan k a). by apply elem_of_get. }
  eexists _, _. split.
  - unfold handle_cancelpayment. cbn [deref]. unfold bind at 1.
    unfold ret at 1. unfold bind. cbn [initiator_transfers].
    pose proof (handle_cancelpayment_loop_exact h d [] cancelled []) as Hrun.
    cbn [app] in Hrun. by rewrite Hrun.
  - unfold handle_cancelpayment. cbn [deref]. unfold bind at 1.
    unfold ret at 1. unfold bind. cbn [initiator_transfers].
    pose proof (handle_cancelpayment_loop_exact h
                  (List.filter (λ entry, negb (cancellable entry)) d) []
                  (cancelled ++ map (λ entry, channel_identifier entry.2)
                                  (List.filter cancellable d)) []) as Hrun.
    cbn [app] in Hrun. rewrite Hrun.
    + rewrite filter_filter_same.
      rewrite (filter_filter_negb cancellable). cbn. by rewrite app_nil_r.
    + eapply sublist_NoDup; [exact Hwf|apply keys_filter_sublist].
    + intros entry Hin. apply Hall.
      apply list_elem_of_In in Hin. apply filter_In in Hin as [Hin _].
      by apply list_elem_of_In.
Qed.

(** *** What the transition raises *)

Lemma handle_cancelpayment_loop_raises snapshot :
  ∀ payment_state evs h e,
  handle_cancelpayment_loop snapshot payment_state evs h = Raises e →
  e = KeyError.
Proof.
  induction snapshot as [|k0 rest IH]; intros ps evs h e; [done|].
  cbn [handle_cancelpayment_loop]. unfold getitem.
  destruct (PyDict.get (initiator_transfers ps) k0) as [a0|] eqn:Ha0;
    [|by intros [= <-]].
  unfold cancel_current_route, with_transfers. exec.
  destruct (channelidentifiers_to_channels h !! channel_identifier a0)
    as [cs0|] eqn:Hcs0; [|by intros [= <-]].
  destruct (can_cancel (Some a0)); apply IH.
Qed.

(** With a payment state present, the transition raises for two reasons
    only.  [KeyError]: an attempt of the mapping has its channel missing from
    the channel map.  [AssertionError]: the state change is a refund for an
    attempt that can still be cancelled, and [try_new_route] returned no
    state for the retry.  It never raises [AttributeError], and the
    assertion of [cancel_current_route] never fails. *)
Theorem present_state_raises payment_state state_change block_number h e :
  PyDict.wf (initiator_transfers payment_state) →
  state_transition (Some payment_state) state_change block_number h = Raises e →
  (e = KeyError ∧
   ∃ k a, PyDict.get (initiator_transfers payment_state) k = Some a ∧
          channelidentifiers_to_channels h !! channel_identifier a = None) ∨
  (e = AssertionError ∧
   ∃ routes refund secret a channels description,
     state_change = ReceiveTransferRefundCancelRoute routes refund secret ∧
     PyDict.get (initiator_transfers payment_state)
       (lock_secrethash (refund_lock refund)) = Some a ∧
     revealsecret a = None ∧
     td_secret description = secret ∧
     new_state (route_iteration
       (try_new_route (Some a) channels routes description
          (pseudo_random_generator h) block_number)) = None).
Proof.
  intros Hwf. unfold state_transition, bind.
  destruct (state_transition_handler _ _ _ _) as [it0 h0|e0] eqn:Hh; [done|].
  intros [= <-].
  assert (∀ e1, subdispatch_to_all_initiatortransfer (Some payment_state)
                  state_change block_number h = Raises e1 → False) as Hall.
  { intros e1. unfold subdispatch_to_all_initiatortransfer. cbn [deref].
    unfold bind, ret.
    destruct (subdispatch_to_all_loop_returns state_change block_number
                (PyDict.keys (initiator_transfers payment_state))
                payment_state [] h Hwf) as (ps' & evs & h' & ->); [|done].
    intros k' Hk'. by apply keys_get_Some, list_elem_of_In. }
  destruct state_change as [bn rest|td routes|sh rest|routes refund secret|
                            |secret rest|sh rest|rest|rest];
    cbn [state_transition_handler] in Hh; try done; try (by destruct (Hall _ Hh)).
  - unfold handle_secretrequest, subdispatch_to_initiatortransfer,
      call_initiator_state_transition in Hh.
    cbn [sc_secrethash] in Hh. exec.
    destruct (PyDict.get (initiator_transfers payment_state) sh) as [a0|] eqn:Ha0;
      [|done].
    destruct (channelidentifiers_to_channels h !! channel_identifier a0) eqn:Hcs;
      [done|].
    injection Hh as <-. left. split; [done|]. eauto.
  - unfold handle_transferrefundcancelroute,
      call_handle_receive_refundtransfercancelroute, maybe_try_new_route,
      cancel_current_route, call_try_new_route, with_transfers in Hh.
    cbn [sc_refund_transfer sc_secret sc_routes] in Hh. exec.
    destruct (PyDict.get (initiator_transfers payment_state) _) as [a0|] eqn:Ha0;
      [|done].
    destruct (channelidentifiers_to_channels h !! channel_identifier a0) eqn:Hcs;
      [|injection Hh as <-; left; split; [done|]; eauto].
    destruct (negb _ || negb _); [done|]. destruct (negb _); [done|].
    unfold can_cancel in Hh.
    destruct (revealsecret a0) eqn:Hreveal; [done|].
    match type of Hh with
    | context [try_new_route ?o ?c ?r ?d ?p ?n] =>
        destruct (new_state (route_iteration (try_new_route o c r d p n)))
          as [new|] eqn:Hnew
    end.
    + by rewrite bool_decide_eq_true_2 in Hh by eauto.
    + rewrite bool_decide_eq_false_2 in Hh by (by intros [? ?]).
      injection Hh as <-. right. split; [done|].
      eexists routes, refund, secret, a0, _, _.
      split; [done|]. split; [done|]. split; [done|]. split; [|exact Hnew]. done.
  - unfold handle_cancelpayment in Hh. cbn [deref] in Hh. unfold bind, ret in Hh.
    destruct (handle_cancelpayment_loop _ _ _ _) as [[ps1 evs1] h2|e1] eqn:Hloop;
      [done|].
    injection Hh as <-. left.
    split; [by eapply handle_cancelpayment_loop_raises|].
    destruct (decide (Forall
                (λ entry : string * InitiatorTransferState,
                   is_Some (channelidentifiers_to_channels h !!
                              channel_identifier entry.2))
                (initiator_transfers payment_state))) as [Hknown|Hunknown].
    + exfalso. rewrite Forall_forall in Hknown.
      destruct payment_state as [d cancelled]. cbn [initiator_transfers] in *.
      pose proof (handle_cancelpayment_loop_exact h d [] cancelled [] Hwf Hknown)
        as Hrun.
      cbn [app] in Hrun. by rewrite Hrun in Hloop.
    + apply not_Forall_Exists in Hunknown; [|apply _].
      apply Exists_exists in Hunknown as ([k a] & Hin & Hnone).
      exists k, a. split; [by apply elem_of_get|].
      cbn in Hnone. by apply eq_None_not_Some.
  - unfold handle_lock_expired, call_handle_receive_lock_expired in Hh.
    cbn [sc_secrethash] in Hh. exec.
    destruct (PyDict.get (initiator_transfers payment_state) sh) as [a0|] eqn:Ha0;
      [|done].
    destruct (channelidentifiers_to_channels h !! channel_identifier a0) eqn:Hcs;
      [done|].
    injection Hh as <-. left. split; [done|]. eauto.
Qed.

(** *** The retry after a refund

    An accepted refund of an attempt that can be cancelled, with a route for
    the retry: the new attempt is stored under the secrethash of the lock
    of its transfer, the channel of the old attempt is appended to the
    cancelled channels, and every other entry of the mapping is as it was.
    The old attempt is not taken out: unless the new attempt lands on its
    key, it is still in the mapping. *)
Theorem refund_keeps_old_attempt payment_state routes refund secret block_number
    h initiator_state channel_state new_initiator :
  PyDict.get (initiator_transfers payment_state)
    (lock_secrethash (refund_lock refund)) = Some initiator_state →
  channelidentifiers_to_channels h !! channel_identifier initiator_state =
    Some channel_state →
  refund_lock refund = transfer_lock (transfer initiator_state) →
  refund_transfer_matches_received refund (transfer initiator_state) = true →
  refund_is_valid (handle_receive_refundtransfercancelroute channel_state refund)
    = true →
  revealsecret initiator_state = None →
  new_state (route_iteration
    (try_new_route (Some initiator_state)
       (<[channel_identifier initiator_state :=
            refund_channel_state
              (handle_receive_refundtransfercancelroute channel_state refund)]>
          (channelidentifiers_to_channels h))
       routes
       (mkTransferDescription
          (td_payment_network_identifier (transfer_description initiator_state))
          (td_payment_identifier (transfer_description initiator_state))
          (td_amount (transfer_description initiator_state))
          (td_token_network_identifier (transfer_description initiator_state))
          (td_initiator (transfer_description initiator_state))
          (td_target (transfer_description initiator_state))
          secret)
       (pseudo_random_generator h) block_number)) = Some new_initiator →
  ∃ payment_state' evs h',
    state_transition (Some payment_state)
      (ReceiveTransferRefundCancelRoute routes refund secret) block_number h =
    Returns (mkTransitionResult (Some payment_state') evs) h' ∧
    PyDict.get (initiator_transfers payment_state')
      (lock_secrethash (transfer_lock (transfer new_initiator))) =
      Some new_initiator ∧
    (∀ k, k ≠ lock_secrethash (transfer_lock (transfer new_initiator)) →
          PyDict.get (initiator_transfers payment_state') k =
          PyDict.get (initiator_transfers payment_state) k) ∧
    cancelled_channels payment_state' =
      cancelled_channels payment_state ++ [channel_identifier initiator_state].
Proof.
  intros Ha Hcs Hlock Hmatch Hvalid Hreveal Hnew.
  eexists _, _, _. split; [|split; [|split]].
  - apply state_transition_of_handler.
    + cbn [state_transition_handler].
      unfold handle_transferrefundcancelroute,
        call_handle_receive_refundtransfercancelroute, maybe_try_new_route,
        cancel_current_route, call_try_new_route, with_transfers.
      cbn [sc_refund_transfer sc_secret sc_routes]. exec.
      rewrite Ha, Hcs, Hlock, !bool_decide_eq_true_2, Hmatch, Hvalid by done.
      cbn [andb negb orb]. unfold can_cancel. rewrite Hreveal.
      cbn [channelidentifiers_to_channels pseudo_random_generator].
      rewrite Hnew.
      rewrite bool_decide_eq_true_2 by eauto. reflexivity.
    + cbn. intros Hnil. apply (f_equal (λ d, PyDict.get d
        (lock_secrethash (transfer_lock (transfer new_initiator))))) in Hnil.
      by rewrite get_setitem_eq in Hnil.
  - cbn. apply get_setitem_eq.
  - intros k Hk. cbn. by apply get_setitem_ne.
  - done.
Qed.
End Coverage.

(** ** Properties of the janitor *)
Section JanitorFacts.
Import Nursery.
Context {Popen Timeout : Type} (waited : Popen → Timeout → WaitResult).
Implicit Types (self : @Janitor Popen Timeout) (p q : Popen).

Lemma wait_for_exit_all_exit timeout (processes : list Popen) :
  (∀ p, p ∈ processes → waited p timeout ≠ TimeoutExpired) →
  wait_for_exit waited timeout processes =
  (concat (map (wait_calls waited timeout) processes), None).
Proof.
  induction processes as [|p rest IH]; intros Hexit; [done|].
  cbn [wait_for_exit map concat]. unfold wait_calls at 1.
  destruct (waited p timeout) as [code|] eqn:Hp.
  - rewrite IH; [done|]. intros q Hq. apply Hexit. by right.
  - exfalso. by apply (Hexit p); [left|].
Qed.

Lemma wait_for_exit_expires timeout (before after : list Popen) p :
  (∀ q, q ∈ before → waited q timeout ≠ TimeoutExpired) →
  waited p timeout = TimeoutExpired →
  wait_for_exit waited timeout (before ++ p :: after) =
  (concat (map (wait_calls waited timeout) before) ++ [wait p timeout], Some p).
Proof.
  intros Hexit Hp. induction before as [|q rest IH].
  - cbn. by rewrite Hp.
  - cbn [app wait_for_exit map concat]. unfold wait_calls at 1.
    destruct (waited q timeout) as [code|] eqn:Hq.
    + rewrite IH; [by rewrite <- app_assoc|].
      intros q' Hq'. apply Hexit. by right.
    + exfalso. by apply (Hexit q); [left|].
Qed.

(** When every process leaves within the timeout, the janitor interrupts
    each of them, then waits for each of them once, in the same order, with
    its own timeout, warning about the exit codes other than success; it
    kills none. *)
Theorem free_resources_when_all_exit self :
  (∀ p, p ∈ _processes self → waited p (stop_timeout self) ≠ TimeoutExpired) →
  _free_resources waited self =
  map (λ p, send_signal p SIGINT) (_processes self) ++
  concat (map (wait_calls waited (stop_timeout self)) (_processes self)).
Proof.
  intros Hexit. unfold _free_resources.
  rewrite wait_for_exit_all_exit by done. by rewrite app_nil_r.
Qed.

(** When a process does not leave in time, the processes after it are not
    waited for, and [SIGKILL] goes to every process of the janitor: to the
    one that timed out, to those not yet waited for, and also to those that
    have already left. *)
Theorem free_resources_on_timeout self (before after : list Popen) p :
  _processes self = before ++ p :: after →
  (∀ q, q ∈ before → waited q (stop_timeout self) ≠ TimeoutExpired) →
  waited p (stop_timeout self) = TimeoutExpired →
  _free_resources waited self =
  map (λ q, send_signal q SIGINT) (_processes self) ++
  concat (map (wait_calls waited (stop_timeout self)) before) ++
  [wait p (stop_timeout self);
   log_warning
     "Process did not stop in time. Sending SIGKILL to all remaining processes!"
     p] ++
  map (λ q, send_signal q SIGKILL) (_processes self).
Proof.
  destruct self as [timeout processes]. cbn [_processes stop_timeout].
  intros -> Hexit Hp. unfold _free_resources. cbn [_processes stop_timeout].
  rewrite wait_for_exit_expires by done.
  by rewrite <- !app_assoc.
Qed.

Lemma wait_for_exit_no_signal timeout (processes : list Popen) q s :
  send_signal q s ∉ (wait_for_exit waited timeout processes).1.
Proof.
  induction processes as [|p rest IH]; cbn [wait_for_exit].
  - cbn. apply not_elem_of_nil.
  - destruct (waited p timeout) as [code|].
    + destruct (wait_for_exit waited timeout rest) as [calls expired].
      cbn [fst] in *. intros Hin.
      apply elem_of_cons in Hin as [?|Hin]; [done|].
      apply elem_of_app in Hin as [Hin|Hin]; [|done].
      case_bool_decide; [|by apply elem_of_nil in Hin].
      apply elem_of_cons in Hin as [?|Hin]; [done|].
      apply elem_of_cons in Hin as [?|Hin]; [done|].
      by apply elem_of_nil in Hin.
    + cbn. intros Hin. apply elem_of_cons in Hin as [?|Hin]; [done|].
      by apply elem_of_nil in Hin.
Qed.

Lemma wait_for_exit_expired timeout (processes : list Popen) :
  is_Some (wait_for_exit waited timeout processes).2 ↔
  ∃ p, p ∈ processes ∧ waited p timeout = TimeoutExpired.
Proof.
  induction processes as [|p rest IH]; cbn [wait_for_exit].
  - cbn. split; [by intros [? ?]|]. intros (p & Hin & _).
    by apply elem_of_nil in Hin.
  - destruct (waited p timeout) as [code|] eqn:Hp.
    + destruct (wait_for_exit waited timeout rest) as [calls expired].
      cbn [snd] in *. rewrite IH. split.
      * intros (q & Hq & Ht). exists q. split; [by right|done].
      * intros (q & Hq & Ht). apply elem_of_cons in Hq as [->|Hq].
        -- by rewrite Hp in Ht.
        -- eauto.
    + cbn. split; [|eauto]. intros _. exists p. split; [by left|done].
Qed.

(** A process is sent [SIGKILL] exactly when it is one of the janitor's and
    the wait for some process of the janitor timed out. *)
Theorem free_resources_kills_iff self q :
  send_signal q SIGKILL ∈ _free_resources waited self ↔
  q ∈ _processes self ∧
  ∃ p, p ∈ _processes self ∧ waited p (stop_timeout self) = TimeoutExpired.
Proof.
  unfold _free_resources.
  pose proof (wait_for_exit_no_signal (stop_timeout self) (_processes self)
                q SIGKILL) as Hwaits.
  pose proof (wait_for_exit_expired (stop_timeout self) (_processes self))
    as Hexp.
  destruct (wait_for_exit waited (stop_timeout self) (_processes self))
    as [waits expired].
  cbn [fst snd] in *. rewrite <- Hexp. rewrite !elem_of_app. split.
  - intros [Hin|[Hin|Hin]].
    + apply list_elem_of_fmap_1 in Hin as (p & Heq & _). done.
    + done.
    + destruct expired as [p|]; [|by apply elem_of_nil in Hin].
      apply elem_of_cons in Hin as [?|Hin]; [done|].
      apply list_elem_of_fmap_1 in Hin as (p' & [= ->] & Hin). eauto.
  - intros [Hq [p ->]]. right. right. right.
    by apply (list_elem_of_fmap_2 (λ p, send_signal p SIGKILL)).
Qed.
End JanitorFacts.

(** ** The further properties on the concrete network *)
Section CoverageOnScenario.
Import Scenario.

Lemma state_transition_retires_empty_witness :
  initiator_transfers payment ≠ [].
Proof.
  apply (state_transition_retires_empty (Some payment)
           (ActionInitInitiator description alternative) 5 heap
           (mkTransitionResult (Some payment) []) heap payment).
  - vm_compute. reflexivity.
  - reflexivity.
Defined.

Lemma secretrequest_touches_one_attempt_witness :
  ∃ payment_state',
    state_transition (Some payment) (ReceiveSecretRequest "#s" nothing) 5 heap =
    Returns
      (mkTransitionResult (Some payment_state') [EventForeign "SendSecretReveal"])
      (mkHeap (<[7 := open_channel]> (channelidentifiers_to_channels heap)) 1) ∧
    PyDict.get (initiator_transfers payment_state') "#s" = Some revealed.
Proof.
  destruct (secretrequest_touches_one_attempt payment "#s" nothing 5 heap
              pending open_channel) as (ps' & Ht & Hg & _);
    [reflexivity|reflexivity|].
  exists ps'. split; [exact Ht|exact Hg].
Defined.

(** The reveal ends the one attempt of the payment: it is retired. *)
Lemma broadcast_to_single_attempt_witness :
  state_transition (Some payment) (ReceiveSecretReveal "s" nothing) 5 heap =
  Returns
    (mkTransitionResult None [EventForeign "EventPaymentSentSuccess"])
    (mkHeap (<[7 := open_channel]> (channelidentifiers_to_channels heap)) 1).
Proof.
  exact (broadcast_to_single_attempt "#s" pending []
           (ReceiveSecretReveal "s" nothing) 5 heap open_channel I eq_refl).
Defined.

Lemma broadcast_without_channels_is_noop_witness :
  state_transition (Some payment2) (Block 70 nothing) 70 bare_heap =
  Returns (mkTransitionResult (Some payment2) []) bare_heap.
Proof.
  apply (broadcast_without_channels_is_noop payment2 (Block 70 nothing) 70
           bare_heap).
  - exact I.
  - by vm_compute.
  - intros k a _. reflexivity.
Defined.

Lemma broadcast_only_removes_attempts_witness :
  ∃ iteration h' payment_state',
    state_transition (Some payment2) (ReceiveSecretReveal "t" nothing) 5
      second_heap = Returns iteration h' ∧
    new_state iteration = Some payment_state' ∧
    sublist (PyDict.keys (initiator_transfers payment_state')) ["#s"; "#t"].
Proof.
  destruct (state_transition (Some payment2) (ReceiveSecretReveal "t" nothing) 5
              second_heap) as [it h'|e] eqn:Ht; [|by vm_compute in Ht].
  destruct (new_state it) as [ps'|] eqn:Hnew.
  - exists it, h', ps'. split; [reflexivity|]. split; [exact Hnew|].
    exact (proj1 (proj2 (broadcast_only_removes_attempts payment2
                           (ReceiveSecretReveal "t" nothing) 5 second_heap it h'
                           I Ht) ps' Hnew)).
  - exfalso. vm_compute in Ht. injection Ht as <- _. discriminate Hnew.
Defined.

(** The sub-machine of the concrete network never touches the transfer. *)
Lemma keys_follow_locks_witness :
  ∃ iteration h',
    state_transition (Some payment)
      (ReceiveTransferRefundCancelRoute alternative refund "n") 5 heap =
      Returns iteration h' ∧
    ∀ payment_state' k a,
      new_state iteration = Some payment_state' →
      PyDict.get (initiator_transfers payment_state') k = Some a →
      lock_secrethash (transfer_lock (transfer a)) = k.
Proof.
  destruct (state_transition (Some payment)
              (ReceiveTransferRefundCancelRoute alternative refund "n") 5 heap)
    as [it h'|e] eqn:Ht; [|by vm_compute in Ht].
  exists it, h'. split; [reflexivity|].
  apply (keys_follow_locks (Some payment)
           (ReceiveTransferRefundCancelRoute alternative refund "n") 5 heap it h').
  - intros a sc cs prng number. destruct sc; cbn; try reflexivity.
    by case_bool_decide.
  - intros ps k a [= <-]. cbn. case_decide; [|done]. by intros [= <-].
  - exact Ht.
Defined.

Lemma cancelpayment_in_full_witness :
  handle_cancelpayment (Some payment2) both_heap =
  Returns
    (mkTransitionResult
       (Some (mkInitiatorPaymentState [("#t", other)] [7]))
       [EventUnlockFailed 1 "#s" "route was canceled";
        EventPaymentSentFailed "net" "token" 1 "carol" "user canceled payment"])
    both_heap.
Proof.
  rewrite (cancelpayment_in_full payment2 both_heap).
  - reflexivity.
  - apply (bool_decide_unpack _). vm_compute. exact I.
  - intros k a. cbn. repeat case_decide; intros [= <-]; by eexists.
Defined.

Lemma cancelpayment_twice_witness :
  ∃ payment_state' evs,
    handle_cancelpayment (Some payment2) both_heap =
      Returns (mkTransitionResult (Some payment_state') evs) both_heap ∧
    handle_cancelpayment (Some payment_state') both_heap =
      Returns (mkTransitionResult (Some payment_state') []) both_heap.
Proof.
  apply (cancelpayment_twice payment2 both_heap).
  - apply (bool_decide_unpack _). vm_compute. exact I.
  - intros k a. cbn. repeat case_decide; intros [= <-]; by eexists.
Defined.

Lemma present_state_raises_witness :
  ∃ k a,
    PyDict.get (initiator_transfers payment) k = Some a ∧
    channelidentifiers_to_channels bare_heap !! channel_identifier a = None.
Proof.
  destruct (present_state_raises payment (ReceiveSecretRequest "#s" nothing) 5
              bare_heap KeyError) as [[_ Hkey]|[Hassert _]].
  - apply (bool_decide_unpack _). vm_compute. exact I.
  - vm_compute. reflexivity.
  - exact Hkey.
  - discriminate Hassert.
Defined.

Lemma refund_keeps_old_attempt_witness :
  ∃ payment_state' evs h',
    state_transition (Some payment)
      (ReceiveTransferRefundCancelRoute alternative refund "n") 5 heap =
    Returns (mkTransitionResult (Some payment_state') evs) h' ∧
    PyDict.get (initiator_transfers payment_state') "#s" = Some pending ∧
    PyDict.get (initiator_transfers payment_state') "#n" = Some retried ∧
    cancelled_channels payment_state' = [7].
Proof.
  destruct (refund_keeps_old_attempt payment alternative refund "n" 5 heap pending
              open_channel retried)
    as (ps' & evs & h' & Ht & Hnew & Hold & Hc);
    try (vm_compute; reflexivity).
  exists ps', evs, h'. split; [exact Ht|]. split; [|split; [|exact Hc]].
  - rewrite Hold; [reflexivity|]. by vm_compute.
  - exact Hnew.
Defined.
End CoverageOnScenario.

Section JanitorOnExample.
Import Nursery.

Lemma free_resources_when_all_exit_witness :
  _free_resources answers calm_janitor =
  [send_signal 1 SIGINT; send_signal 2 SIGINT;
   wait 1 20; wait 2 20; communicate 2;
   log_warning "Process did not exit cleanly" 2].
Proof.
  rewrite (free_resources_when_all_exit answers calm_janitor).
  - reflexivity.
  - intros p Hp. cbn in Hp. vm_compute.
    apply elem_of_cons in Hp as [->|Hp]; [done|].
    apply elem_of_cons in Hp as [->|Hp]; [done|].
    by apply elem_of_nil in Hp.
Defined.

Lemma free_resources_on_timeout_witness :
  _free_resources answers janitor =
  [send_signal 1 SIGINT; send_signal 2 SIGINT; send_signal 3 SIGINT;
   send_signal 4 SIGINT;
   wait 1 20; wait 2 20; communicate 2;
   log_warning "Process did not exit cleanly" 2;
   wait 3 20;
   log_warning
     "Process did not stop in time. Sending SIGKILL to all remaining processes!"
     3;
   send_signal 1 SIGKILL; send_signal 2 SIGKILL; send_signal 3 SIGKILL;
   send_signal 4 SIGKILL].
Proof.
  rewrite (free_resources_on_timeout answers janitor [1; 2] [4] 3).
  - reflexivity.
  - reflexivity.
  - intros q Hq.
    apply elem_of_cons in Hq as [->|Hq]; [done|].
    apply elem_of_cons in Hq as [->|Hq]; [done|].
    by apply elem_of_nil in Hq.
  - reflexivity.
Defined.

Lemma free_resources_kills_iff_witness :
  send_signal 1 SIGKILL ∈ _free_resources answers janitor.
Proof.
  apply (free_resources_kills_iff answers janitor 1). split.
  - by left.
  - exists 3. split; [|reflexivity]. right. right. by left.
Defined.
End JanitorOnExample.
